(** * A shallow embedding of the IQ Option trading application

    The development follows the Python sources:
    - [config.py]                       -> [Config]
    - [app/api/iqoption.py]             -> [Gateway], the [World] and its monad
    - [app/services/analysis.py]        -> module [Analysis]
    - [app/services/bank_management.py] -> module [BankManagement]
    - [app/services/trading.py]         -> module [Trading]
    Module [Fixtures] holds the sample inputs and the predicates in which
    the properties are stated; the properties follow it.

    Numbers.  Prices, volumes and balances arrive from the broker as finite
    numbers; they are modelled as exact rationals ([Q]), so binary64 rounding
    is not part of the model.  Where the code divides pandas/numpy values
    without a guard (RSI, volume ratio) the IEEE special values matter, and
    those computations are carried out in [xfloat]: a rational, an infinity
    or NaN, with the IEEE rules for division by zero and for comparisons
    with NaN.  Signed zeros are not modelled.                              *)

From Stdlib Require Import QArith Qround Qabs ZArith Lia Lqa.
From stdpp Require Import base gmap strings list fin_maps.

(* ===================================================================== *)
(** * Numbers                                                             *)
(* ===================================================================== *)

Module Num.

Local Open Scope Q_scope.

Definition Qlt_bool (x y : Q) : bool := negb (Qle_bool y x).

(** Python's builtin [max(a, b)] and [min(a, b)]: the first argument wins
    unless the second is strictly better. *)
Definition py_max (a b : Q) : Q := if Qlt_bool a b then b else a.
Definition py_min (a b : Q) : Q := if Qlt_bool b a then b else a.

(** [round(x)] to the nearest integer, ties to the even one. *)
Definition round_half_even (x : Q) : Z :=
  let f := Qfloor x in
  let r := x - inject_Z f in
  if Qlt_bool r (1 # 2) then f
  else if Qlt_bool (1 # 2) r then (f + 1)%Z
  else if Z.even f then f else (f + 1)%Z.

(** [round(x, 2)] *)
Definition py_round2 (x : Q) : Q := inject_Z (round_half_even (x * 100)) / 100.

(** numpy float64 values, without rounding. *)
Inductive xfloat : Type :=
  | Fin (q : Q)
  | PInf
  | NInf
  | NaN.

Definition isna (x : xfloat) : bool :=
  match x with NaN => true | _ => false end.

Definition xneg (x : xfloat) : xfloat :=
  match x with
  | Fin q => Fin (- q)
  | PInf => NInf
  | NInf => PInf
  | NaN => NaN
  end.

Definition xadd (x y : xfloat) : xfloat :=
  match x, y with
  | NaN, _ | _, NaN => NaN
  | Fin a, Fin b => Fin (a + b)
  | PInf, NInf | NInf, PInf => NaN
  | PInf, _ | _, PInf => PInf
  | NInf, _ | _, NInf => NInf
  end.

Definition xsub (x y : xfloat) : xfloat := xadd x (xneg y).

(** Division as numpy performs it: a division by zero is not an error, it
    yields an infinity (non-zero numerator) or NaN (zero numerator). *)
Definition xdiv (x y : xfloat) : xfloat :=
  match x, y with
  | NaN, _ | _, NaN => NaN
  | Fin a, Fin b =>
      if Qeq_bool b 0 then
        (if Qlt_bool 0 a then PInf else if Qlt_bool a 0 then NInf else NaN)
      else Fin (a / b)
  | Fin _, (PInf | NInf) => Fin 0
  | PInf, Fin b => if Qlt_bool b 0 then NInf else PInf
  | NInf, Fin b => if Qlt_bool b 0 then PInf else NInf
  | (PInf | NInf), (PInf | NInf) => NaN
  end.

(** Comparisons: anything compared with NaN is [False]. *)
Definition xlt (x y : xfloat) : bool :=
  match x, y with
  | NaN, _ | _, NaN => false
  | Fin a, Fin b => Qlt_bool a b
  | NInf, (Fin _ | PInf) => true
  | Fin _, PInf => true
  | _, _ => false
  end.

Definition xgt (x y : xfloat) : bool := xlt y x.

(** Equality of float values up to the representation of the rational. *)
Definition xeq (x y : xfloat) : Prop :=
  match x, y with
  | Fin a, Fin b => a == b
  | PInf, PInf | NInf, NInf | NaN, NaN => True
  | _, _ => False
  end.

Definition xsum (l : list xfloat) : xfloat := foldl xadd (Fin 0) l.

Definition Qsum (l : list Q) : Q := foldl Qplus 0 l.

End Num.
Export Num.

(* ===================================================================== *)
(** * Exceptions                                                          *)
(* ===================================================================== *)

Inductive exn : Type :=
  | ZeroDivisionError
  | IndexError
  | KeyError
  | AttributeError.

Inductive res (A : Type) : Type :=
  | Ret (a : A)
  | Raise (e : exn).
Arguments Ret {A} a.
Arguments Raise {A} e.

Definition res_bind {A B} (r : res A) (k : A -> res B) : res B :=
  match r with
  | Ret a => k a
  | Raise e => Raise e
  end.

Notation "'try!' x := r 'in' k" := (res_bind r (fun x => k))
  (at level 10, x name, r at level 100, k at level 200).

(* ===================================================================== *)
(** * config.py                                                           *)
(* ===================================================================== *)

Record Config : Type := {
  EXPIRATION_TIME : Z;
  MAX_BANK_PERCENTAGE : Q;
  DAILY_STOP_LOSS : Q;
  DAILY_STOP_GAIN : Q;
  RSI_PERIOD : nat;
  RSI_OVERBOUGHT : Q;
  RSI_OVERSOLD : Q;
  MACD_FAST : nat;
  MACD_SLOW : nat;
  MACD_SIGNAL : nat
}.

(** [class Config] *)
Definition default_config : Config := {|
  EXPIRATION_TIME := 1;
  MAX_BANK_PERCENTAGE := 20 # 100;
  DAILY_STOP_LOSS := 40 # 100;
  DAILY_STOP_GAIN := 1;
  RSI_PERIOD := 14;
  RSI_OVERBOUGHT := 70;
  RSI_OVERSOLD := 30;
  MACD_FAST := 12;
  MACD_SLOW := 26;
  MACD_SIGNAL := 9
|}.

(* ===================================================================== *)
(** * Data model                                                          *)
(* ===================================================================== *)

(** One OHLCV bar, as the broker delivers it ([app/models/trading.py]). *)
Record Candle : Type := {
  open : Q;
  high : Q;
  low : Q;
  close : Q;
  volume : Q;
  timestamp : Z
}.

(** A [pandas.DataFrame] of candles: one row per bar, oldest first. *)
Definition DataFrame : Type := list Candle.

(** The per-asset counters kept in [daily_stats['assets']]. *)
Record AssetStats : Type := {
  as_trades : Z;
  as_wins : Z;
  as_losses : Z;
  as_profit_loss : Q
}.

(** The [trade] dict built by [record_trade]. *)
Record TradeRecord : Type := {
  t_timestamp : string;
  t_asset : string;
  t_amount : Q;
  t_direction : string;
  t_result : option string;
  t_profit_loss : option Q
}.

(** Calendar days, as proleptic ordinals ([date.toordinal()]). *)
Definition date_t : Type := Z.

(** The module-level [daily_stats] dict of [bank_management.py]. *)
Record DailyStats : Type := {
  date : date_t;
  initial_balance : Q;
  current_balance : Q;
  profit_loss : Q;
  trades : list TradeRecord;
  assets : gmap string AssetStats
}.

(* ===================================================================== *)
(** * app/api/iqoption.py: the gateway and the world                      *)
(* ===================================================================== *)

(** What [iq_api.place_binary_order] can hand back: a falsy value ([None]
    when not connected or when the broker call failed), a dict (read with
    [.get('id')]), or some other truthy object, on which [.get] raises. *)
Inductive OrderReply : Type :=
  | ReplyFalsy
  | ReplyDict (id : option string)
  | ReplyOther.

(** Calls that cross the gateway boundary, in the order they happen. *)
Inductive Event : Type :=
  | EvGetBalance
  | EvGetCandles (asset : string) (timeframe count : Z)
  | EvPlaceOrder (asset : string) (amount : Q) (direction : string) (expiration : Z).

(** The environment: what the clock and the broker answer at each moment.
    The moment is the number of gateway calls made so far. *)
Record Gateway : Type := {
  gw_today : nat -> date_t;
  gw_now : nat -> string;
  gw_get_balance : nat -> option Q;
  gw_get_candles : nat -> string -> Z -> Z -> option (list Candle);
  gw_place_binary_order : nat -> string -> Q -> string -> Z -> OrderReply
}.

Record World : Type := {
  daily_stats : DailyStats;
  trace : list Event
}.

(** Stateful code: a function of the world. *)
Definition M (A : Type) : Type := World -> A * World.

Definition ret {A} (a : A) : M A := fun w => (a, w).

Definition bind {A B} (m : M A) (k : A -> M B) : M B :=
  fun w => let (a, w') := m w in k a w'.

Notation "'let!' x := m 'in' k" := (bind m (fun x => k))
  (at level 10, x name, m at level 100, k at level 200).
Notation "'run!' m 'in' k" := (bind m (fun _ => k))
  (at level 10, m at level 100, k at level 200).

Definition get_stats : M DailyStats := fun w => (daily_stats w, w).

Definition put_stats (ds : DailyStats) : M unit :=
  fun w => (tt, {| daily_stats := ds; trace := trace w |}).

Definition emit (e : Event) : M nat :=
  fun w => (length (trace w), {| daily_stats := daily_stats w; trace := trace w ++ [e] |}).

Section GatewayCalls.
Variable gw : Gateway.

(** [date.today()] *)
Definition date_today : M date_t := fun w => (gw_today gw (length (trace w)), w).

(** [datetime.now().isoformat()] *)
Definition datetime_now : M string := fun w => (gw_now gw (length (trace w)), w).

(** [iq_api.get_balance()] *)
Definition get_balance : M (option Q) :=
  let! n := emit EvGetBalance in ret (gw_get_balance gw n).

(** [iq_api.get_candles(asset, timeframe, count)] *)
Definition get_candles (asset : string) (timeframe count : Z) : M (option (list Candle)) :=
  let! n := emit (EvGetCandles asset timeframe count) in
  ret (gw_get_candles gw n asset timeframe count).

(** [iq_api.place_binary_order(asset, amount, direction, expiration)] *)
Definition place_binary_order (asset : string) (amount : Q) (direction : string)
    (expiration : Z) : M OrderReply :=
  let! n := emit (EvPlaceOrder asset amount direction expiration) in
  ret (gw_place_binary_order gw n asset amount direction expiration).
End GatewayCalls.

(* ===================================================================== *)
(** * app/services/analysis.py                                            *)
(* ===================================================================== *)

Module Analysis.

Local Open Scope Q_scope.

(** ** pandas series, as far as the indicators use them *)

(** [s.iloc[-1]]: an [IndexError] on an empty series. *)
Definition iloc_last {A} (s : list A) : res A :=
  match last s with
  | Some x => Ret x
  | None => Raise IndexError
  end.

(** [s.iloc[-2]] *)
Definition iloc_prev {A} (s : list A) : res A :=
  match s !! (length s - 2)%nat with
  | Some x => if (2 <=? length s)%nat then Ret x else Raise IndexError
  | None => Raise IndexError
  end.

(** [s.iloc[-n:]] *)
Definition lastn {A} (n : nat) (s : list A) : list A := drop (length s - n) s.

Fixpoint diff_from (prev : Q) (s : list Q) : list xfloat :=
  match s with
  | [] => []
  | x :: rest => Fin (x - prev) :: diff_from x rest
  end.

(** [s.diff()]: the first entry has no predecessor and is NaN. *)
Definition diff (s : list Q) : list xfloat :=
  match s with
  | [] => []
  | x :: rest => NaN :: diff_from x rest
  end.

(** [s.where(cond, other)] *)
Definition where_ (cond : xfloat -> bool) (other : xfloat) (s : list xfloat) : list xfloat :=
  map (fun x => if cond x then x else other) s.

(** The mean of the last [w] entries of a prefix; NaN while the prefix is
    shorter than the window ([min_periods] defaults to the window). *)
Definition window_mean (w : nat) (pre : list xfloat) : xfloat :=
  if (length pre <? w)%nat then NaN
  else xdiv (xsum (lastn w pre)) (Fin (inject_Z (Z.of_nat w))).

(** [s.rolling(window=w).mean()] *)
Definition rolling_mean (w : nat) (s : list xfloat) : list xfloat :=
  imap (fun i _ => window_mean w (take (S i) s)) s.

Fixpoint ewm_from (alpha prev : Q) (s : list Q) : list Q :=
  match s with
  | [] => []
  | x :: rest =>
      let y := (1 - alpha) * prev + alpha * x in
      y :: ewm_from alpha y rest
  end.

(** [s.ewm(span=span, adjust=False).mean()] *)
Definition ewm_mean (span : nat) (s : list Q) : list Q :=
  let alpha := 2 / (inject_Z (Z.of_nat span) + 1) in
  match s with
  | [] => []
  | x :: rest => x :: ewm_from alpha x rest
  end.

(** ** Indicator results *)

Record RsiResult : Type := {
  rsi_value : xfloat;
  rsi_signal : string;
  rsi_overbought : bool;
  rsi_oversold : bool
}.

Record MacdResult : Type := {
  macd_macd : Q;
  macd_signal : string;
  macd_histogram : Q;
  macd_crossover : bool
}.

Record VolumeResult : Type := {
  vol_volume : Q;
  vol_avg_volume : xfloat;
  vol_volume_ratio : xfloat;
  vol_signal : string
}.

Record Patterns : Type := {
  pat_doji : bool;
  pat_hammer : bool;
  pat_bullish_engulfing : option bool;
  pat_bearish_engulfing : option bool;
  pat_signal : string
}.

Record Overall : Type := {
  ov_signal : string;
  ov_strength : Q;
  ov_call_count : Z;
  ov_put_count : Z
}.

(** A value of the [signals] dict. *)
Inductive Indicator : Type :=
  | IRsi (r : RsiResult)
  | IMacd (r : MacdResult)
  | IVolume (r : VolumeResult)
  | IPatterns (r : Patterns)
  | IOverall (r : Overall).

(** [v.get('signal')] *)
Definition get_signal (v : Indicator) : string :=
  match v with
  | IRsi r => rsi_signal r
  | IMacd r => macd_signal r
  | IVolume r => vol_signal r
  | IPatterns r => pat_signal r
  | IOverall r => ov_signal r
  end.

(** [period or app.config['RSI_PERIOD']] *)
Definition period_or (period : option nat) (dflt : nat) : nat :=
  match period with
  | Some (S p) => S p
  | _ => dflt
  end.

(** The two rolling averages of [calculate_rsi]. *)
Definition rsi_gain (df : DataFrame) : list xfloat :=
  let delta := diff (map close df) in
  where_ (fun d => xgt d (Fin 0)) (Fin 0) delta.

Definition rsi_loss (df : DataFrame) : list xfloat :=
  let delta := diff (map close df) in
  map xneg (where_ (fun d => xlt d (Fin 0)) (Fin 0) delta).

Definition calculate_rsi (cfg : Config) (df : DataFrame) (period : option nat) : res RsiResult :=
  let period := period_or period (RSI_PERIOD cfg) in
  let overbought := Fin (RSI_OVERBOUGHT cfg) in
  let oversold := Fin (RSI_OVERSOLD cfg) in
  let gain := rsi_gain df in
  let loss := rsi_loss df in
  let avg_gain := rolling_mean period gain in
  let avg_loss := rolling_mean period loss in
  let rs := zip_with xdiv avg_gain avg_loss in
  let rsi := map (fun r => xsub (Fin 100) (xdiv (Fin 100) (xadd (Fin 1) r))) rs in
  try! latest_rsi := iloc_last rsi in
  let signal :=
    if xlt latest_rsi oversold then "CALL"
    else if xgt latest_rsi overbought then "PUT"
    else "NEUTRAL" in
  Ret {| rsi_value := latest_rsi;
         rsi_signal := signal;
         rsi_overbought := xgt latest_rsi overbought;
         rsi_oversold := xlt latest_rsi oversold |}.

Definition calculate_macd (cfg : Config) (df : DataFrame) : res MacdResult :=
  let fast := MACD_FAST cfg in
  let slow := MACD_SLOW cfg in
  let signal_period := MACD_SIGNAL cfg in
  let ema_fast := ewm_mean fast (map close df) in
  let ema_slow := ewm_mean slow (map close df) in
  let macd_line := zip_with Qminus ema_fast ema_slow in
  let signal_line := ewm_mean signal_period macd_line in
  let histogram := zip_with Qminus macd_line signal_line in
  try! latest_macd := iloc_last macd_line in
  try! latest_signal := iloc_last signal_line in
  try! latest_histogram := iloc_last histogram in
  try! prev_histogram :=
    (if (1 <? length histogram)%nat then iloc_prev histogram else Ret 0) in
  let signal :=
    if Qlt_bool latest_signal latest_macd && Qlt_bool 0 latest_histogram
       && Qlt_bool prev_histogram latest_histogram then "CALL"
    else if Qlt_bool latest_macd latest_signal && Qlt_bool latest_histogram 0
       && Qlt_bool latest_histogram prev_histogram then "PUT"
    else "NEUTRAL" in
  Ret {| macd_macd := latest_macd;
         macd_signal := signal;
         macd_histogram := latest_histogram;
         macd_crossover := Qlt_bool latest_signal latest_macd |}.

Definition analyze_volume (df : DataFrame) : res VolumeResult :=
  let avg_volume := rolling_mean 10 (map (fun c => Fin (volume c)) df) in
  try! latest_volume := iloc_last (map volume df) in
  try! avg_last := iloc_last avg_volume in
  let volume_ratio :=
    if negb (isna avg_last) then xdiv (Fin latest_volume) avg_last else Fin 1 in
  try! last_close := iloc_last (map close df) in
  try! last_open := iloc_last (map open df) in
  let price_change := last_close - last_open in
  let signal :=
    if xgt volume_ratio (Fin (15 # 10)) && Qlt_bool 0 price_change then "CALL"
    else if xgt volume_ratio (Fin (15 # 10)) && Qlt_bool price_change 0 then "PUT"
    else "NEUTRAL" in
  Ret {| vol_volume := latest_volume;
         vol_avg_volume := if negb (isna avg_last) then avg_last else Fin 0;
         vol_volume_ratio := volume_ratio;
         vol_signal := signal |}.

(** A row of [last_candles], with the derived columns. *)
Record CandleRow : Type := {
  row : Candle;
  body_size : Q;
  upper_shadow : Q;
  lower_shadow : Q;
  is_bullish : bool
}.

Definition candle_row (c : Candle) : CandleRow := {|
  row := c;
  body_size := Qabs (close c - open c);
  upper_shadow := high c - py_max (open c) (close c);
  lower_shadow := py_min (open c) (close c) - low c;
  is_bullish := Qlt_bool (open c) (close c)
|}.

Definition detect_candlestick_patterns (df : DataFrame) : res Patterns :=
  let last_candles := map candle_row (lastn 3 df) in
  try! latest := iloc_last last_candles in
  let range := high (row latest) - low (row latest) in
  let body_to_range_ratio :=
    if Qlt_bool 0 range then body_size latest / range else 0 in
  let doji := Qlt_bool body_to_range_ratio (1 # 10) in
  let lower_shadow_ratio :=
    if Qlt_bool 0 (body_size latest) then lower_shadow latest / body_size latest else 0 in
  let upper_shadow_ratio :=
    if Qlt_bool 0 (body_size latest) then upper_shadow latest / body_size latest else 0 in
  let hammer := Qlt_bool 2 lower_shadow_ratio && Qlt_bool upper_shadow_ratio (1 # 2) in
  try! engulfing :=
    (if (2 <=? length last_candles)%nat then
       try! prev := iloc_prev last_candles in
       Ret (Some (is_bullish latest && negb (is_bullish prev)
                  && Qlt_bool (open (row latest)) (close (row prev))
                  && Qlt_bool (open (row prev)) (close (row latest))),
            Some (negb (is_bullish latest) && is_bullish prev
                  && Qlt_bool (close (row prev)) (open (row latest))
                  && Qlt_bool (close (row latest)) (open (row prev))))
     else Ret (None, None)) in
  let bullish_engulfing := engulfing.1 in
  let bearish_engulfing := engulfing.2 in
  let signal :=
    if default false bullish_engulfing || (hammer && is_bullish latest) then "CALL"
    else if default false bearish_engulfing || (hammer && negb (is_bullish latest)) then "PUT"
    else "NEUTRAL" in
  Ret {| pat_doji := doji;
         pat_hammer := hammer;
         pat_bullish_engulfing := bullish_engulfing;
         pat_bearish_engulfing := bearish_engulfing;
         pat_signal := signal |}.

(** Integer true division [a / b]. *)
Definition py_div (a b : Z) : res Q :=
  if (b =? 0)%Z then Raise ZeroDivisionError
  else Ret (inject_Z a / inject_Z b).

(** [sum(1 for k, v in signals.items() if ... v.get('signal') == s)] *)
Definition count_signal (s : string) (signals : gmap string Indicator) : Z :=
  Z.of_nat (length (filter (fun kv => get_signal kv.2 = s) (map_to_list signals))).

Definition determine_overall_signal (signals : gmap string Indicator) : res Overall :=
  let call_count := count_signal "CALL" signals in
  let put_count := count_signal "PUT" signals in
  let total_indicators := (Z.of_nat (size signals) - 1)%Z in
  if (put_count <? call_count)%Z then
    try! ratio := py_div call_count total_indicators in
    Ret {| ov_signal := "CALL"; ov_strength := ratio * 100;
           ov_call_count := call_count; ov_put_count := put_count |}
  else if (call_count <? put_count)%Z then
    try! ratio := py_div put_count total_indicators in
    Ret {| ov_signal := "PUT"; ov_strength := ratio * 100;
           ov_call_count := call_count; ov_put_count := put_count |}
  else
    Ret {| ov_signal := "NEUTRAL"; ov_strength := 0;
           ov_call_count := call_count; ov_put_count := put_count |}.

(** The body of the [try] block of [analyze_asset], once the candles are in. *)
Definition analyze_candles (cfg : Config) (df : DataFrame) : res (gmap string Indicator) :=
  let signals : gmap string Indicator := ∅ in
  try! rsi := calculate_rsi cfg df None in
  let signals := <["rsi" := IRsi rsi]> signals in
  try! macd := calculate_macd cfg df in
  let signals := <["macd" := IMacd macd]> signals in
  try! vol := analyze_volume df in
  let signals := <["volume" := IVolume vol]> signals in
  try! patterns := detect_candlestick_patterns df in
  let signals := <["patterns" := IPatterns patterns]> signals in
  try! overall := determine_overall_signal signals in
  let signals := <["overall" := IOverall overall]> signals in
  Ret signals.

(** [analyze_asset(asset, timeframe=60)]: [None] when the candles are
    missing or empty, and when anything inside raised. *)
Definition analyze_asset (gw : Gateway) (cfg : Config) (asset : string) (timeframe : Z)
    : M (option (gmap string Indicator)) :=
  let! candles := get_candles gw asset timeframe 100 in
  match candles with
  | None | Some [] => ret None
  | Some df =>
      match analyze_candles cfg df with
      | Ret signals => ret (Some signals)
      | Raise _ => ret None
      end
  end.

End Analysis.

(* ===================================================================== *)
(** * app/services/bank_management.py                                     *)
(* ===================================================================== *)

Module BankManagement.

Local Open Scope Q_scope.

(** The dict that [initialize_daily_stats] installs on a rollover. *)
Definition fresh_stats (today : date_t) (balance : Q) : DailyStats := {|
  date := today;
  initial_balance := balance;
  current_balance := balance;
  profit_loss := 0;
  trades := [];
  assets := ∅
|}.

(** [daily_stats] as the module creates it when it is imported: today's
    date and zero balances. *)
Definition import_stats (today : date_t) : DailyStats := fresh_stats today 0.

Definition zero_asset_stats : AssetStats := {|
  as_trades := 0;
  as_wins := 0;
  as_losses := 0;
  as_profit_loss := 0
|}.

(** The dict returned by [check_stop_conditions]; the ['reason'] key is
    present only when the stop is triggered. *)
Inductive StopCheck : Type :=
  | StopTriggered (reason : string) (percentage : Q)
  | StopNotTriggered (percentage : Q).

Definition stop_triggered (sc : StopCheck) : bool :=
  match sc with
  | StopTriggered _ _ => true
  | StopNotTriggered _ => false
  end.

Definition percentage (sc : StopCheck) : Q :=
  match sc with
  | StopTriggered _ p => p
  | StopNotTriggered p => p
  end.

(** In-place updates of [daily_stats]: the two balance keys, and the
    ['trades'] list with the ['assets'] dict. *)
Definition with_balance (ds : DailyStats) (balance : Q) : DailyStats := {|
  date := date ds;
  initial_balance := initial_balance ds;
  current_balance := balance;
  profit_loss := balance - initial_balance ds;
  trades := trades ds;
  assets := assets ds
|}.

Definition with_trades (ds : DailyStats) (new_trades : list TradeRecord)
    (new_assets : gmap string AssetStats) : DailyStats := {|
  date := date ds;
  initial_balance := initial_balance ds;
  current_balance := current_balance ds;
  profit_loss := profit_loss ds;
  trades := new_trades;
  assets := new_assets
|}.

(** Truthiness of an optional string and of an optional number. *)
Definition truthy_str (s : option string) : bool :=
  match s with
  | Some s => negb (String.eqb s "")
  | None => false
  end.

Definition truthy_num (q : option Q) : bool :=
  match q with
  | Some q => negb (Qeq_bool q 0)
  | None => false
  end.

(** The profit/loss percentage that [check_stop_conditions] computes from
    the ledger. *)
Definition pl_percentage_of (ds : DailyStats) : Q :=
  if Qlt_bool 0 (initial_balance ds)
  then (profit_loss ds / initial_balance ds) * 100
  else 0.

Section WithGateway.
Variable gw : Gateway.
Variable cfg : Config.

Definition initialize_daily_stats : M DailyStats :=
  let! today := date_today gw in
  let! ds := get_stats in
  run! (if negb (date ds =? today)%Z then
          let! balance := get_balance gw in
          match balance with
          | Some balance => put_stats (fresh_stats today balance)
          | None => ret tt
          end
        else ret tt) in
  get_stats.

Definition update_balance : M DailyStats :=
  let! balance := get_balance gw in
  run! (match balance with
        | Some balance =>
            let! ds := get_stats in
            put_stats (with_balance ds balance)
        | None => ret tt
        end) in
  get_stats.

(** [if daily_stats['initial_balance'] == 0: initialize_daily_stats()] *)
Definition initialize_if_needed : M unit :=
  let! ds := get_stats in
  if Qeq_bool (initial_balance ds) 0 then
    run! initialize_daily_stats in ret tt
  else ret tt.

Definition check_stop_conditions : M StopCheck :=
  run! initialize_if_needed in
  run! update_balance in
  let! ds := get_stats in
  let pl_percentage := pl_percentage_of ds in
  let stop_loss_pct := DAILY_STOP_LOSS cfg * 100 in
  let stop_gain_pct := DAILY_STOP_GAIN cfg * 100 in
  if Qle_bool pl_percentage (- stop_loss_pct) then
    ret (StopTriggered "STOP_LOSS" pl_percentage)
  else if Qle_bool stop_gain_pct pl_percentage then
    ret (StopTriggered "STOP_GAIN" pl_percentage)
  else
    ret (StopNotTriggered pl_percentage).

(** [{asset: per_asset_amount for asset in assets}] *)
Definition amounts_dict (per_asset_amount : Q) (assets : list string) : gmap string Q :=
  foldl (fun result asset => <[asset := per_asset_amount]> result) ∅ assets.

Definition calculate_entry_amount (assets : list string) : M (gmap string Q) :=
  run! initialize_if_needed in
  run! update_balance in
  let! ds := get_stats in
  let max_bank_percentage := MAX_BANK_PERCENTAGE cfg in
  let total_risk_amount := current_balance ds * max_bank_percentage in
  let num_assets := length assets in
  if (num_assets =? 0)%nat then ret ∅
  else
    let per_asset_amount := total_risk_amount / inject_Z (Z.of_nat num_assets) in
    let per_asset_amount := py_max 1 (py_round2 per_asset_amount) in
    ret (amounts_dict per_asset_amount assets).

Definition record_trade (asset : string) (amount : Q) (direction : string)
    (result : option string) (profit_loss : option Q) : M TradeRecord :=
  let! ds := get_stats in
  let stats :=
    match assets ds !! asset with
    | None => <[asset := zero_asset_stats]> (assets ds)
    | Some _ => assets ds
    end in
  let! now := datetime_now gw in
  let trade := {| t_timestamp := now;
                  t_asset := asset;
                  t_amount := amount;
                  t_direction := direction;
                  t_result := result;
                  t_profit_loss := profit_loss |} in
  let stats :=
    if truthy_str result then
      alter (fun st =>
        {| as_trades := as_trades st + 1;
           as_wins := if bool_decide (result = Some "WIN")
                      then as_wins st + 1 else as_wins st;
           as_losses := if bool_decide (result = Some "WIN") then as_losses st
                        else if bool_decide (result = Some "LOSS")
                        then as_losses st + 1 else as_losses st;
           as_profit_loss := if truthy_num profit_loss
                             then as_profit_loss st + default 0 profit_loss
                             else as_profit_loss st |}) asset stats
    else stats in
  run! put_stats (with_trades ds (trades ds ++ [trade]) stats) in
  ret trade.

Definition get_daily_stats : M DailyStats :=
  let! ds := get_stats in
  run! (if Qeq_bool (initial_balance ds) 0 then initialize_daily_stats
        else update_balance) in
  get_stats.

End WithGateway.

End BankManagement.

(* ===================================================================== *)
(** * app/services/trading.py                                             *)
(* ===================================================================== *)

Module Trading.

Import Analysis BankManagement.
Local Open Scope Q_scope.

(** An entry of [results['trades']], by its ['status']. *)
Inductive TradeResult : Type :=
  | Placed (asset direction : string) (amount : Q) (expiration : Z) (order_id : option string)
  | Failed (asset direction : string) (amount : Q) (expiration : Z)
  | Error (asset : string) (message : exn).

Definition tr_status (r : TradeResult) : string :=
  match r with
  | Placed _ _ _ _ _ => "placed"
  | Failed _ _ _ _ => "failed"
  | Error _ _ => "error"
  end.

Definition tr_asset (r : TradeResult) : string :=
  match r with
  | Placed a _ _ _ _ => a
  | Failed a _ _ _ => a
  | Error a _ => a
  end.

(** The dict returned by [execute_trades], by its ['status']. *)
Inductive Report : Type :=
  | Stopped (reason : string) (percentage : Q)
  | Executed (trades : list TradeResult).

Definition report_status (r : Report) : string :=
  match r with
  | Stopped _ _ => "stopped"
  | Executed _ => "executed"
  end.

Definition report_trades (r : Report) : list TradeResult :=
  match r with
  | Stopped _ _ => []
  | Executed trades => trades
  end.

(** How one turn of the [for asset in assets] loop ends: with one of the
    three [continue] statements (each logs its own line and adds nothing to
    the results), or by appending an entry to [results['trades']]. *)
Inductive Skip : Type :=
  | EntryAmountTooSmall
  | FailedToAnalyze
  | NoStrongSignal.

Inductive Turn : Type :=
  | Continue (why : Skip)
  | Append (entry : TradeResult).

(** [overall['strength']] *)
Definition get_strength (v : Indicator) : res Q :=
  match v with
  | IOverall r => Ret (ov_strength r)
  | _ => Raise KeyError
  end.

Section WithGateway.
Variable gw : Gateway.
Variable cfg : Config.

(** The body of the loop for one asset. *)
Definition trade_asset (entry_amounts : gmap string Q) (asset : string) : M Turn :=
  if Qlt_bool (default 0 (entry_amounts !! asset)) 1 then
    ret (Continue EntryAmountTooSmall)
  else
    let! analysis := analyze_asset gw cfg asset 60 in
    match analysis with
    | None => ret (Continue FailedToAnalyze)
    | Some analysis =>
        match analysis !! "overall" with
        | None => ret (Append (Error asset KeyError))
        | Some overall =>
            let weak :=
              if String.eqb (get_signal overall) "NEUTRAL" then Ret true
              else try! strength := get_strength overall in
                   Ret (Qlt_bool strength 60) in
            match weak with
            | Raise e => ret (Append (Error asset e))
            | Ret true => ret (Continue NoStrongSignal)
            | Ret false =>
                let direction := get_signal overall in
                match entry_amounts !! asset with
                | None => ret (Append (Error asset KeyError))
                | Some amount =>
                    let expiration := EXPIRATION_TIME cfg in
                    let! trade_record := record_trade gw asset amount direction None None in
                    let! result := place_binary_order gw asset amount direction expiration in
                    match result with
                    | ReplyDict order_id =>
                        ret (Append (Placed asset direction amount expiration order_id))
                    | ReplyOther => ret (Append (Error asset AttributeError))
                    | ReplyFalsy =>
                        ret (Append (Failed asset direction amount expiration))
                    end
                end
            end
        end
    end.

(** [for asset in assets: ...], threading [results['trades']]. *)
Fixpoint trade_assets (entry_amounts : gmap string Q) (assets : list string)
    (results : list TradeResult) : M (list TradeResult) :=
  match assets with
  | [] => ret results
  | asset :: rest =>
      let! turn := trade_asset entry_amounts asset in
      match turn with
      | Continue _ => trade_assets entry_amounts rest results
      | Append entry => trade_assets entry_amounts rest (results ++ [entry])
      end
  end.

Definition execute_trades (assets : list string) : M Report :=
  let! stop_check := check_stop_conditions gw cfg in
  match stop_check with
  | StopTriggered reason percentage => ret (Stopped reason percentage)
  | StopNotTriggered _ =>
      let! entry_amounts := calculate_entry_amount gw cfg assets in
      let! trades := trade_assets entry_amounts assets [] in
      ret (Executed trades)
  end.

End WithGateway.

End Trading.

(* ===================================================================== *)
(** * Fixtures and observers used by the statements                       *)
(* ===================================================================== *)

Module Fixtures.

Import Analysis BankManagement Trading.
Local Open Scope Q_scope.

(** A [signals] dict as [analyze_asset] builds it before the fusion: the
    four indicator entries, each with the given ['signal']. *)
Definition signals_of (rsi macd vol pat : string) : gmap string Indicator :=
  let signals : gmap string Indicator := ∅ in
  let signals := <["rsi" := IRsi {| rsi_value := Fin 50; rsi_signal := rsi;
                                    rsi_overbought := false; rsi_oversold := false |}]> signals in
  let signals := <["macd" := IMacd {| macd_macd := 0; macd_signal := macd;
                                      macd_histogram := 0; macd_crossover := false |}]> signals in
  let signals := <["volume" := IVolume {| vol_volume := 1; vol_avg_volume := Fin 1;
                                          vol_volume_ratio := Fin 1; vol_signal := vol |}]> signals in
  let signals := <["patterns" := IPatterns {| pat_doji := false; pat_hammer := false;
                                              pat_bullish_engulfing := Some false;
                                              pat_bearish_engulfing := Some false;
                                              pat_signal := pat |}]> signals in
  signals.

(** A bar with all four prices equal to [p]. *)
Definition flat_candle (p v : Q) : Candle :=
  {| open := p; high := p; low := p; close := p; volume := v; timestamp := 0 |}.

(** A bar that opens at [p] and closes one unit higher. *)
Definition rising_candle (p v : Q) : Candle :=
  {| open := p; high := p + 1; low := p; close := p + 1; volume := v; timestamp := 0 |}.

Definition flat_series (n : nat) : DataFrame := repeat (flat_candle 1 5) n.

Definition rising_series (n : nat) : DataFrame :=
  map (fun i => rising_candle (inject_Z (Z.of_nat i)) 5) (seq 0 n).

(** A broker that is connected, on day [today], with a constant balance
    and constant candles, and that accepts every order. *)
Definition steady_gateway (today : date_t) (balance : Q) (df : DataFrame) : Gateway := {|
  gw_today := fun _ => today;
  gw_now := fun _ => "2024-01-02T10:00:00";
  gw_get_balance := fun _ => Some balance;
  gw_get_candles := fun _ _ _ _ => Some df;
  gw_place_binary_order := fun _ _ _ _ _ => ReplyDict (Some "order-1")
|}.

Definition world_of (ds : DailyStats) : World := {| daily_stats := ds; trace := [] |}.

(** A ledger opened on day 100 with 1000, holding one pending trade. *)
Definition funded_stats : DailyStats := {|
  date := 100%Z;
  initial_balance := 1000;
  current_balance := 1000;
  profit_loss := 0;
  trades := [ {| t_timestamp := "2024-01-01T09:00:00"; t_asset := "EURUSD";
                 t_amount := 100; t_direction := "CALL";
                 t_result := None; t_profit_loss := None |} ];
  assets := {[ "EURUSD" := zero_asset_stats ]}
|}.

Definition funded_world : World := world_of funded_stats.

(** The next day, with the balance down to 500 and then to 900. *)
Definition halved_gateway : Gateway := steady_gateway 101%Z 500 (flat_series 1).
Definition next_day_gateway : Gateway := steady_gateway 101%Z 900 (flat_series 1).

(** The assets of the orders submitted in a stretch of the trace. *)
Definition placed_assets (evs : list Event) : list string :=
  omap (fun e => match e with
                 | EvPlaceOrder asset _ _ _ => Some asset
                 | _ => None
                 end) evs.

(** The ledger identity [current_balance - initial_balance == profit_loss]. *)
Definition ledger_consistent (ds : DailyStats) : Prop :=
  current_balance ds - initial_balance ds == profit_loss ds.

(** The operations that write to [daily_stats]. *)
Inductive LedgerOp : Type :=
  | OpInitialize
  | OpUpdateBalance
  | OpRecordTrade (asset : string) (amount : Q) (direction : string)
      (result : option string) (profit_loss : option Q)
  | OpCheckStop
  | OpEntryAmounts (assets : list string)
  | OpGetDailyStats
  | OpExecuteTrades (assets : list string).

Definition run_op (gw : Gateway) (cfg : Config) (op : LedgerOp) : M unit :=
  match op with
  | OpInitialize => run! initialize_daily_stats gw in ret tt
  | OpUpdateBalance => run! update_balance gw in ret tt
  | OpRecordTrade asset amount direction result pl =>
      run! record_trade gw asset amount direction result pl in ret tt
  | OpCheckStop => run! check_stop_conditions gw cfg in ret tt
  | OpEntryAmounts assets => run! calculate_entry_amount gw cfg assets in ret tt
  | OpGetDailyStats => run! get_daily_stats gw in ret tt
  | OpExecuteTrades assets => run! execute_trades gw cfg assets in ret tt
  end.

Fixpoint run_ops (gw : Gateway) (cfg : Config) (ops : list LedgerOp) : M unit :=
  match ops with
  | [] => ret tt
  | op :: rest => run! run_op gw cfg op in run_ops gw cfg rest
  end.

(** ** Series of closing prices *)

(** Each close minus the one before it. *)
Fixpoint deltas_from (prev : Q) (s : list Q) : list Q :=
  match s with
  | [] => []
  | x :: rest => (x - prev) :: deltas_from x rest
  end.

Definition deltas (s : list Q) : list Q :=
  match s with
  | [] => []
  | x :: rest => deltas_from x rest
  end.

(** Every close is above the previous one; every close equals the
    previous one. *)
Definition strictly_rising (s : list Q) : Prop := Forall (fun d => 0 < d) (deltas s).
Definition constant (s : list Q) : Prop := Forall (fun d => d == 0) (deltas s).

(** The gains and the losses of [calculate_rsi], as rationals. *)
Definition gains_q (df : DataFrame) : list Q :=
  match map close df with
  | [] => []
  | x :: rest => 0 :: map (fun d => if Qlt_bool 0 d then d else 0) (deltas_from x rest)
  end.

Definition losses_q (df : DataFrame) : list Q :=
  match map close df with
  | [] => []
  | x :: rest => - 0 :: map (fun d => - (if Qlt_bool d 0 then d else 0)) (deltas_from x rest)
  end.

(** Three bars with volumes 10, 20 and 30. *)
Definition three_bars : DataFrame :=
  [ flat_candle 1 10; flat_candle 1 20; flat_candle 1 30 ].

(** A property of the ledger that a computation keeps. *)
Definition preserves {A} (P : DailyStats -> Prop) (m : M A) : Prop :=
  forall w, P (daily_stats w) -> P (daily_stats (m w).2).

(** The ledger after a rollover attempt and a balance refresh: the trace
    grows by balance reads only, and the trades are kept or emptied. *)
Definition refreshed (w w' : World) : Prop :=
  (exists n, (1 <= n <= 2)%nat /\ trace w' = trace w ++ repeat EvGetBalance n) /\
  (trades (daily_stats w') = trades (daily_stats w) \/ trades (daily_stats w') = []).

(** The keys of the ledger that only a rollover rewrites. *)
Definition same_day (ds ds' : DailyStats) : Prop :=
  date ds' = date ds /\ initial_balance ds' = initial_balance ds /\
  trades ds' = trades ds /\ assets ds' = assets ds.

(** The statuses an entry of [results['trades']] can carry. *)
Definition reported_status (entry : TradeResult) : Prop :=
  tr_status entry = "placed" \/ tr_status entry = "failed" \/ tr_status entry = "error".

(** The ledger of a freshly imported module on day 100, and a broker that
    serves one flat bar for every asset. *)
Definition import_world : World := world_of (import_stats 100%Z).
Definition quiet_gateway : Gateway := steady_gateway 100%Z 1000 (flat_series 1).

(** A bearish bar from 1.10 to 1.08 followed by a bullish bar from 1.07 to
    1.11 that engulfs it. *)
Definition engulfing_pair : DataFrame :=
  [ {| open := 110 # 100; high := 111 # 100; low := 107 # 100; close := 108 # 100;
       volume := 10; timestamp := 0 |};
    {| open := 107 # 100; high := 112 # 100; low := 106 # 100; close := 111 # 100;
       volume := 10; timestamp := 60 |} ].

End Fixtures.

(* ===================================================================== *)
(** * Properties                                                          *)
(* ===================================================================== *)

Import Analysis BankManagement Trading Fixtures.
Local Open Scope Q_scope.

(** ** Numbers *)

Lemma Qlt_bool_iff (x y : Q) : Qlt_bool x y = true <-> x < y.
Proof.
  unfold Qlt_bool. rewrite negb_true_iff.
  split.
  - intros H. apply Qnot_le_lt. intros Hle.
    apply Qle_bool_iff in Hle. congruence.
  - intros H. destruct (Qle_bool y x) eqn:E; [|reflexivity].
    apply Qle_bool_iff in E. lra.
Qed.

Lemma Qlt_bool_false_iff (x y : Q) : Qlt_bool x y = false <-> y <= x.
Proof.
  unfold Qlt_bool. rewrite negb_false_iff. apply Qle_bool_iff.
Qed.

Lemma py_max_lower_bound (a b : Q) : a <= py_max a b.
Proof.
  unfold py_max. destruct (Qlt_bool a b) eqn:E.
  - apply Qlt_bool_iff in E. lra.
  - lra.
Qed.

(** ** Signal fusion *)

(** C1 (the code departs from the claim).  On the four indicator signals
    Call, Call, Put, Neutral the fusion answers Call with counts 2 and 1,
    but it divides by [len(signals) - 1 = 3], so the strength is 200/3
    (66.67), not 50. *)
Theorem fusion_two_calls_of_four :
  exists o,
    determine_overall_signal (signals_of "CALL" "CALL" "PUT" "NEUTRAL") = Ret o /\
    ov_signal o = "CALL" /\ ov_call_count o = 2%Z /\ ov_put_count o = 1%Z /\
    ov_strength o == 200 # 3 /\ ~ ov_strength o == 50.
Proof.
  eexists. split; [vm_compute; reflexivity|].
  cbn. repeat split; try reflexivity.
  intros H. discriminate H.
Qed.

(** C2 (the code departs from the claim).  When all four indicators say
    Call the strength is 400/3 (133.33), outside [0, 100]. *)
Theorem fusion_strength_exceeds_100 :
  exists o,
    determine_overall_signal (signals_of "CALL" "CALL" "CALL" "CALL") = Ret o /\
    ov_signal o = "CALL" /\ ov_strength o == 400 # 3 /\ ~ ov_strength o <= 100.
Proof.
  eexists. split; [vm_compute; reflexivity|].
  cbn. repeat split; try reflexivity.
  intros H. apply H. reflexivity.
Qed.

(** ** Reasoning about stateful code *)

Lemma preserves_ret {A} P (a : A) : preserves P (ret a).
Proof. intros w H. exact H. Qed.

Lemma preserves_bind {A B} P (m : M A) (k : A -> M B) :
  preserves P m -> (forall a, preserves P (k a)) -> preserves P (bind m k).
Proof.
  intros Hm Hk w H. unfold bind.
  specialize (Hm w H). destruct (m w) as [a w']. now apply Hk.
Qed.

Lemma preserves_get_stats P : preserves P get_stats.
Proof. intros w H. exact H. Qed.

Lemma preserves_emit P e : preserves P (emit e).
Proof. intros w H. exact H. Qed.

Lemma preserves_date_today P gw : preserves P (date_today gw).
Proof. intros w H. exact H. Qed.

Lemma preserves_get_balance P gw : preserves P (get_balance gw).
Proof. apply preserves_bind; [apply preserves_emit | intros; apply preserves_ret]. Qed.

Lemma preserves_get_candles P gw asset timeframe count :
  preserves P (get_candles gw asset timeframe count).
Proof. apply preserves_bind; [apply preserves_emit | intros; apply preserves_ret]. Qed.

Lemma preserves_place_binary_order P gw asset amount direction expiration :
  preserves P (place_binary_order gw asset amount direction expiration).
Proof. apply preserves_bind; [apply preserves_emit | intros; apply preserves_ret]. Qed.

Lemma preserves_put_stats P ds : P ds -> preserves P (put_stats ds).
Proof. intros H w _. exact H. Qed.

Lemma preserves_analyze_asset P gw cfg asset timeframe :
  preserves P (analyze_asset gw cfg asset timeframe).
Proof.
  apply preserves_bind; [apply preserves_get_candles|].
  intros [[|c df]|]; try apply preserves_ret.
  destruct (analyze_candles cfg (c :: df)); apply preserves_ret.
Qed.

Create HintDb preserves.
#[local] Hint Resolve preserves_ret preserves_get_stats preserves_emit preserves_date_today
  preserves_get_balance preserves_get_candles preserves_place_binary_order
  preserves_analyze_asset : preserves.

(** ** The ledger identity *)

Lemma fresh_stats_consistent today balance : ledger_consistent (fresh_stats today balance).
Proof. unfold ledger_consistent. simpl. lra. Qed.

Lemma with_balance_consistent ds balance : ledger_consistent (with_balance ds balance).
Proof. unfold ledger_consistent. simpl. lra. Qed.

Lemma with_trades_consistent ds new_trades new_assets :
  ledger_consistent ds -> ledger_consistent (with_trades ds new_trades new_assets).
Proof. unfold ledger_consistent. simpl. tauto. Qed.

Lemma initialize_daily_stats_consistent gw :
  preserves ledger_consistent (initialize_daily_stats gw).
Proof.
  unfold initialize_daily_stats.
  apply preserves_bind; [auto with preserves|]. intros today.
  apply preserves_bind; [auto with preserves|]. intros ds.
  apply preserves_bind; [|auto with preserves].
  destruct (negb (date ds =? today)%Z); [|auto with preserves].
  apply preserves_bind; [auto with preserves|].
  intros [balance|]; [|auto with preserves].
  apply preserves_put_stats, fresh_stats_consistent.
Qed.

Lemma update_balance_consistent gw :
  preserves ledger_consistent (update_balance gw).
Proof.
  unfold update_balance.
  apply preserves_bind; [auto with preserves|].
  intros [balance|]; (apply preserves_bind; [|auto with preserves]);
    [|auto with preserves].
  apply preserves_bind; [auto with preserves|]. intros ds.
  apply preserves_put_stats, with_balance_consistent.
Qed.

Lemma record_trade_consistent gw asset amount direction result pl :
  preserves ledger_consistent (record_trade gw asset amount direction result pl).
Proof.
  intros w H. unfold record_trade, bind, get_stats, datetime_now, put_stats, ret.
  simpl. now apply with_trades_consistent.
Qed.

Lemma initialize_if_needed_consistent gw :
  preserves ledger_consistent (initialize_if_needed gw).
Proof.
  unfold initialize_if_needed.
  apply preserves_bind; [auto with preserves|]. intros ds.
  destruct (Qeq_bool (initial_balance ds) 0); [|auto with preserves].
  apply preserves_bind; [apply initialize_daily_stats_consistent | auto with preserves].
Qed.

Lemma check_stop_conditions_consistent gw cfg :
  preserves ledger_consistent (check_stop_conditions gw cfg).
Proof.
  unfold check_stop_conditions.
  apply preserves_bind; [apply initialize_if_needed_consistent|]. intros _.
  apply preserves_bind; [apply update_balance_consistent|]. intros _.
  apply preserves_bind; [auto with preserves|]. intros ds.
  repeat match goal with |- context [if ?b then _ else _] => destruct b end;
    auto with preserves.
Qed.

Lemma calculate_entry_amount_consistent gw cfg assets :
  preserves ledger_consistent (calculate_entry_amount gw cfg assets).
Proof.
  unfold calculate_entry_amount.
  apply preserves_bind; [apply initialize_if_needed_consistent|]. intros _.
  apply preserves_bind; [apply update_balance_consistent|]. intros _.
  apply preserves_bind; [auto with preserves|]. intros ds.
  destruct (length assets =? 0)%nat; auto with preserves.
Qed.

Lemma get_daily_stats_consistent gw :
  preserves ledger_consistent (get_daily_stats gw).
Proof.
  unfold get_daily_stats.
  apply preserves_bind; [auto with preserves|]. intros ds.
  apply preserves_bind; [|auto with preserves].
  destruct (Qeq_bool (initial_balance ds) 0);
    [apply initialize_daily_stats_consistent | apply update_balance_consistent].
Qed.

Lemma trade_asset_consistent gw cfg entry_amounts asset :
  preserves ledger_consistent (trade_asset gw cfg entry_amounts asset).
Proof.
  unfold trade_asset.
  destruct (Qlt_bool _ 1); [auto with preserves|].
  apply preserves_bind; [auto with preserves|].
  intros [analysis|]; [|auto with preserves].
  destruct (analysis !! "overall") as [overall|]; [|auto with preserves].
  match goal with |- context [match ?x with Ret _ => _ | Raise _ => _ end] =>
    destruct x as [[|]|] end; auto with preserves.
  destruct (entry_amounts !! asset) as [amount|]; [|auto with preserves].
  apply preserves_bind; [apply record_trade_consistent|]. intros _.
  apply preserves_bind; [auto with preserves|].
  intros [| |]; auto with preserves.
Qed.

Lemma trade_assets_consistent gw cfg entry_amounts assets results :
  preserves ledger_consistent (trade_assets gw cfg entry_amounts assets results).
Proof.
  revert results. induction assets as [|asset rest IH]; intros results; simpl.
  - auto with preserves.
  - apply preserves_bind; [apply trade_asset_consistent|].
    intros [why|entry]; apply IH.
Qed.

Lemma execute_trades_consistent gw cfg assets :
  preserves ledger_consistent (execute_trades gw cfg assets).
Proof.
  unfold execute_trades.
  apply preserves_bind; [apply check_stop_conditions_consistent|].
  intros [reason pct|pct]; [auto with preserves|].
  apply preserves_bind; [apply calculate_entry_amount_consistent|]. intros amounts.
  apply preserves_bind; [apply trade_assets_consistent | auto with preserves].
Qed.

Lemma run_op_consistent gw cfg op : preserves ledger_consistent (run_op gw cfg op).
Proof.
  destruct op; simpl; (apply preserves_bind; [|auto with preserves]).
  - apply initialize_daily_stats_consistent.
  - apply update_balance_consistent.
  - apply record_trade_consistent.
  - apply check_stop_conditions_consistent.
  - apply calculate_entry_amount_consistent.
  - apply get_daily_stats_consistent.
  - apply execute_trades_consistent.
Qed.

Lemma run_ops_consistent gw cfg ops : preserves ledger_consistent (run_ops gw cfg ops).
Proof.
  induction ops as [|op rest IH]; simpl.
  - auto with preserves.
  - apply preserves_bind; [apply run_op_consistent | intros _; exact IH].
Qed.

(** C5.  Start from the ledger the module creates when it is imported and
    run any sequence of ledger-writing operations (initialisation/rollover,
    balance refresh, [record_trade], and the functions built from them)
    against any broker: after the sequence, hence after each of its
    operations, [current_balance - initial_balance == profit_loss]. *)
Theorem ledger_identity_after_every_update :
  forall (gw : Gateway) (cfg : Config) (today : date_t) (ops : list LedgerOp),
    ledger_consistent
      (daily_stats (run_ops gw cfg ops (world_of (import_stats today))).2).
Proof.
  intros gw cfg today ops.
  apply run_ops_consistent. simpl. apply fresh_stats_consistent.
Qed.

(** ** What the ledger functions do to the world *)

Lemma initialize_daily_stats_eq gw w :
  initialize_daily_stats gw w =
    let today := gw_today gw (length (trace w)) in
    if negb (date (daily_stats w) =? today)%Z then
      match gw_get_balance gw (length (trace w)) with
      | Some balance =>
          (fresh_stats today balance,
           {| daily_stats := fresh_stats today balance;
              trace := trace w ++ [EvGetBalance] |})
      | None =>
          (daily_stats w,
           {| daily_stats := daily_stats w; trace := trace w ++ [EvGetBalance] |})
      end
    else (daily_stats w, w).
Proof.
  unfold initialize_daily_stats, bind, date_today, get_stats, get_balance, bind,
    emit, ret, put_stats. simpl.
  destruct (negb _); simpl; [|reflexivity].
  destruct (gw_get_balance gw _); reflexivity.
Qed.

Lemma update_balance_eq gw w :
  update_balance gw w =
    match gw_get_balance gw (length (trace w)) with
    | Some balance =>
        (with_balance (daily_stats w) balance,
         {| daily_stats := with_balance (daily_stats w) balance;
            trace := trace w ++ [EvGetBalance] |})
    | None =>
        (daily_stats w,
         {| daily_stats := daily_stats w; trace := trace w ++ [EvGetBalance] |})
    end.
Proof.
  unfold update_balance, bind, get_stats, get_balance, bind, emit, ret, put_stats.
  simpl. destruct (gw_get_balance gw _); reflexivity.
Qed.

Lemma record_trade_eq gw asset amount direction result pl w :
  exists new_assets,
    let trade := {| t_timestamp := gw_now gw (length (trace w));
                    t_asset := asset; t_amount := amount; t_direction := direction;
                    t_result := result; t_profit_loss := pl |} in
    record_trade gw asset amount direction result pl w =
      (trade,
       {| daily_stats :=
            with_trades (daily_stats w) (trades (daily_stats w) ++ [trade]) new_assets;
          trace := trace w |}) /\
    delete asset new_assets = delete asset (assets (daily_stats w)).
Proof.
  unfold record_trade, bind, get_stats, datetime_now, put_stats, ret. simpl.
  eexists. split; [reflexivity|].
  destruct (truthy_str result); rewrite ?delete_alter_eq;
    destruct (assets (daily_stats w) !! asset); rewrite ?delete_insert_eq; reflexivity.
Qed.

(** C10.  [record_trade], whatever its [result] and [profit_loss]
    arguments, leaves the ledger's date, initial balance, current balance
    and ledger-level profit/loss untouched; it appends exactly the returned
    record to the trades, and in the per-asset stats only the entry of the
    given asset can differ (the dicts agree once that key is removed).  It
    makes no gateway call. *)
Theorem record_trade_frame :
  forall (gw : Gateway) (asset : string) (amount : Q) (direction : string)
         (result : option string) (pl : option Q) (w : World),
    let ds := daily_stats w in
    let trade := (record_trade gw asset amount direction result pl w).1 in
    let ds' := daily_stats (record_trade gw asset amount direction result pl w).2 in
    date ds' = date ds /\
    initial_balance ds' = initial_balance ds /\
    current_balance ds' = current_balance ds /\
    profit_loss ds' = profit_loss ds /\
    trades ds' = trades ds ++ [trade] /\
    delete asset (assets ds') = delete asset (assets ds) /\
    trace (record_trade gw asset amount direction result pl w).2 = trace w.
Proof.
  intros gw asset amount direction result pl w.
  destruct (record_trade_eq gw asset amount direction result pl w) as (na & E & Hdel).
  cbv zeta in E. cbv zeta. rewrite E. simpl.
  repeat split; try reflexivity. exact Hdel.
Qed.

(** Any other asset's entry reads the same before and after. *)
Lemma record_trade_other_asset gw asset amount direction result pl w other :
  other <> asset ->
  assets (daily_stats (record_trade gw asset amount direction result pl w).2) !! other
  = assets (daily_stats w) !! other.
Proof.
  intros Hne.
  destruct (record_trade_eq gw asset amount direction result pl w) as (na & E & Hdel).
  cbv zeta in E. rewrite E. simpl.
  rewrite <- (lookup_delete_ne na asset other) by congruence.
  rewrite Hdel. apply lookup_delete_ne. congruence.
Qed.

Lemma initialize_if_needed_eq gw w :
  initialize_if_needed gw w =
    if Qeq_bool (initial_balance (daily_stats w)) 0
    then (tt, (initialize_daily_stats gw w).2)
    else (tt, w).
Proof.
  unfold initialize_if_needed, bind, get_stats, ret.
  destruct (Qeq_bool _ 0); [|reflexivity].
  destruct (initialize_daily_stats gw w); reflexivity.
Qed.

Lemma check_stop_conditions_eq gw cfg w :
  check_stop_conditions gw cfg w =
    let w' := (update_balance gw (initialize_if_needed gw w).2).2 in
    let pct := pl_percentage_of (daily_stats w') in
    (if Qle_bool pct (- (DAILY_STOP_LOSS cfg * 100)) then StopTriggered "STOP_LOSS" pct
     else if Qle_bool (DAILY_STOP_GAIN cfg * 100) pct then StopTriggered "STOP_GAIN" pct
     else StopNotTriggered pct, w').
Proof.
  unfold check_stop_conditions, bind.
  destruct (initialize_if_needed gw w) as [u w1]. simpl.
  destruct (update_balance gw w1) as [ds w2]. simpl.
  unfold get_stats.
  destruct (Qle_bool _ _); [reflexivity|].
  destruct (Qle_bool _ _); reflexivity.
Qed.

Lemma refresh_refreshed gw w :
  refreshed w (update_balance gw (initialize_if_needed gw w).2).2.
Proof.
  rewrite initialize_if_needed_eq.
  destruct (Qeq_bool _ 0); simpl.
  - rewrite initialize_daily_stats_eq. cbv zeta.
    destruct (negb _); simpl.
    + destruct (gw_get_balance gw (length (trace w))); simpl;
        rewrite update_balance_eq; simpl;
        destruct (gw_get_balance gw _); simpl;
        (split; [exists 2%nat; split; [lia | now rewrite <- app_assoc] | auto]).
    + rewrite update_balance_eq.
      destruct (gw_get_balance gw _); simpl;
        (split; [exists 1%nat; split; [lia | reflexivity] | auto]).
  - rewrite update_balance_eq.
    destruct (gw_get_balance gw _); simpl;
      (split; [exists 1%nat; split; [lia | reflexivity] | auto]).
Qed.

(** C4.  When the stop check that opens [execute_trades] reports a
    triggered stop, [execute_trades] returns the stopped report with that
    reason (stop loss or stop gain) and the profit/loss percentage of the
    refreshed ledger, and ends in the very world the stop check left: the
    only gateway calls are the one or two balance reads of the check, so no
    order is submitted and no candles are fetched, the entry amounts are not
    computed (that would read the balance again), and no trade record is
    appended (the trades are as before, or emptied by a rollover). *)
Theorem execute_trades_stopped :
  forall (gw : Gateway) (cfg : Config) (assets : list string)
         (w : World) (sc : StopCheck) (w' : World),
    check_stop_conditions gw cfg w = (sc, w') ->
    stop_triggered sc = true ->
    exists reason,
      (reason = "STOP_LOSS" \/ reason = "STOP_GAIN") /\
      sc = StopTriggered reason (pl_percentage_of (daily_stats w')) /\
      execute_trades gw cfg assets w
        = (Stopped reason (pl_percentage_of (daily_stats w')), w') /\
      (exists n, (1 <= n <= 2)%nat /\ trace w' = trace w ++ repeat EvGetBalance n) /\
      placed_assets (drop (length (trace w)) (trace w')) = [] /\
      (trades (daily_stats w') = trades (daily_stats w) \/ trades (daily_stats w') = []).
Proof.
  intros gw cfg assets w sc w' Hcheck Htrig.
  pose proof (refresh_refreshed gw w) as [(n & Hn & Htrace) Htrades].
  assert (Hexec : forall reason pct,
             sc = StopTriggered reason pct ->
             execute_trades gw cfg assets w = (Stopped reason pct, w')).
  { intros reason pct ->. unfold execute_trades, bind. now rewrite Hcheck. }
  rewrite check_stop_conditions_eq in Hcheck. cbv zeta in Hcheck.
  injection Hcheck as Hsc Hw. subst w'.
  assert (Hplaced : placed_assets
            (drop (length (trace w))
               (trace (update_balance gw (initialize_if_needed gw w).2).2)) = []).
  { rewrite Htrace, drop_app_length. clear. induction n; [reflexivity | exact IHn]. }
  destruct (Qle_bool _ (- _)).
  - exists "STOP_LOSS". subst sc. repeat split; eauto.
  - destruct (Qle_bool _ _).
    + exists "STOP_GAIN". subst sc. repeat split; eauto.
    + subst sc. discriminate Htrig.
Qed.

(** A 50 percent loss against the default 40 percent limit: the batch is stopped. *)
Lemma execute_trades_stopped_witness :
  exists reason,
    (reason = "STOP_LOSS" \/ reason = "STOP_GAIN") /\
    (check_stop_conditions halved_gateway default_config funded_world).1
      = StopTriggered reason
          (pl_percentage_of
             (daily_stats (check_stop_conditions halved_gateway default_config funded_world).2)) /\
    execute_trades halved_gateway default_config ["EURUSD"; "GBPUSD"] funded_world
      = (Stopped reason
           (pl_percentage_of
              (daily_stats (check_stop_conditions halved_gateway default_config funded_world).2)),
         (check_stop_conditions halved_gateway default_config funded_world).2) /\
    (exists n, (1 <= n <= 2)%nat /\
       trace (check_stop_conditions halved_gateway default_config funded_world).2
         = trace funded_world ++ repeat EvGetBalance n) /\
    placed_assets
      (drop (length (trace funded_world))
         (trace (check_stop_conditions halved_gateway default_config funded_world).2)) = [] /\
    (trades (daily_stats (check_stop_conditions halved_gateway default_config funded_world).2)
       = trades (daily_stats funded_world) \/
     trades (daily_stats (check_stop_conditions halved_gateway default_config funded_world).2)
       = []).
Proof.
  apply (execute_trades_stopped halved_gateway default_config ["EURUSD"; "GBPUSD"]
           funded_world
           (check_stop_conditions halved_gateway default_config funded_world).1
           (check_stop_conditions halved_gateway default_config funded_world).2).
  - destruct (check_stop_conditions halved_gateway default_config funded_world); reflexivity.
  - vm_compute. reflexivity.
Defined.

(** ** Day rollover *)

Lemma calculate_entry_amount_world gw cfg assets w :
  (calculate_entry_amount gw cfg assets w).2
  = (update_balance gw (initialize_if_needed gw w).2).2.
Proof.
  unfold calculate_entry_amount, bind.
  destruct (initialize_if_needed gw w) as [u w1]. simpl.
  destruct (update_balance gw w1) as [ds w2]. simpl.
  unfold get_stats. destruct (length assets =? 0)%nat; reflexivity.
Qed.

Lemma get_daily_stats_world gw w :
  (get_daily_stats gw w).2
  = if Qeq_bool (initial_balance (daily_stats w)) 0
    then (initialize_daily_stats gw w).2
    else (update_balance gw w).2.
Proof.
  unfold get_daily_stats, bind, get_stats.
  destruct (Qeq_bool _ 0).
  - destruct (initialize_daily_stats gw w); reflexivity.
  - destruct (update_balance gw w); reflexivity.
Qed.

Lemma update_balance_same_day gw w :
  same_day (daily_stats w) (daily_stats (update_balance gw w).2).
Proof.
  rewrite update_balance_eq.
  destruct (gw_get_balance gw _); simpl; repeat split.
Qed.

(** Once the initial balance is not zero, none of the three ledger reads
    reaches [initialize_daily_stats]: the day, the initial balance, the
    trades and the per-asset stats stay, whatever the calendar says. *)
Lemma funded_ledger_keeps_its_day gw cfg assets w :
  Qeq_bool (initial_balance (daily_stats w)) 0 = false ->
  same_day (daily_stats w) (daily_stats (check_stop_conditions gw cfg w).2) /\
  same_day (daily_stats w) (daily_stats (calculate_entry_amount gw cfg assets w).2) /\
  same_day (daily_stats w) (daily_stats (get_daily_stats gw w).2).
Proof.
  intros Hfunded.
  rewrite check_stop_conditions_eq, calculate_entry_amount_world, get_daily_stats_world.
  cbv zeta. simpl. rewrite initialize_if_needed_eq, Hfunded. simpl.
  repeat split; apply update_balance_same_day.
Qed.

(** With a zero initial balance on a later day, and a broker that answers,
    the ledger is replaced by a fresh one for the current day. *)
Lemma unfunded_ledger_rolls_over gw w balance :
  Qeq_bool (initial_balance (daily_stats w)) 0 = true ->
  date (daily_stats w) <> gw_today gw (length (trace w)) ->
  gw_get_balance gw (length (trace w)) = Some balance ->
  daily_stats (initialize_if_needed gw w).2
  = fresh_stats (gw_today gw (length (trace w))) balance.
Proof.
  intros Hzero Hday Hbal.
  rewrite initialize_if_needed_eq, Hzero. simpl.
  rewrite initialize_daily_stats_eq. cbv zeta.
  destruct (Z.eqb_spec (date (daily_stats w)) (gw_today gw (length (trace w))));
    [contradiction|]. simpl.
  now rewrite Hbal.
Qed.

(** C3 (the code departs from the claim).  A ledger opened on day 100 with
    balance 1000 is read on day 101, the broker reporting 900.  The stop
    check, the sizing and the daily-stats read all keep the ledger of day
    100: same date, same initial balance, same trades; only the current
    balance and the profit/loss follow the broker.  No rollover happens,
    because each read calls [initialize_daily_stats] only when the initial
    balance is zero. *)
Theorem stale_ledger_is_not_rolled_over :
  (date (daily_stats funded_world) < gw_today next_day_gateway 0)%Z /\
  Forall (fun ds' =>
            date ds' = 100%Z /\
            initial_balance ds' = 1000 /\
            trades ds' = trades funded_stats /\
            trades ds' <> [] /\
            current_balance ds' = 900 /\
            profit_loss ds' == - (100))
    [ daily_stats (check_stop_conditions next_day_gateway default_config funded_world).2;
      daily_stats (calculate_entry_amount next_day_gateway default_config
                     ["EURUSD"] funded_world).2;
      daily_stats (get_daily_stats next_day_gateway funded_world).2 ].
Proof.
  split; [reflexivity|].
  repeat constructor; try discriminate.
Qed.

(** ** Series *)

Lemma iloc_last_map {A B} (f : A -> B) (s : list A) (x : A) :
  last s = Some x -> iloc_last (map f s) = Ret (f x).
Proof.
  intros H. unfold iloc_last.
  change (map f s) with (f <$> s). now rewrite fmap_last, H.
Qed.

Lemma iloc_last_rolling_mean w (s : list xfloat) :
  s <> [] -> iloc_last (rolling_mean w s) = Ret (window_mean w s).
Proof.
  intros Hs. unfold iloc_last, rolling_mean.
  rewrite last_lookup, list_lookup_imap, length_imap, <- last_lookup.
  destruct (last s) as [x|] eqn:E.
  - simpl. rewrite take_ge; [reflexivity|].
    destruct s; [contradiction | simpl; lia].
  - apply last_None in E. contradiction.
Qed.

Lemma window_mean_short w (s : list xfloat) :
  (length s < w)%nat -> window_mean w s = NaN.
Proof.
  intros H. unfold window_mean.
  destruct (Nat.ltb_spec (length s) w); [reflexivity | lia].
Qed.

Lemma last_zip_with {A B C} (f : A -> B -> C) (a : list A) (b : list B) x y :
  length a = length b -> last a = Some x -> last b = Some y ->
  last (zip_with f a b) = Some (f x y).
Proof.
  intros Hlen Ha Hb.
  rewrite last_lookup in Ha. rewrite last_lookup in Hb. rewrite last_lookup.
  rewrite lookup_zip_with.
  rewrite length_zip_with_l_eq by exact Hlen.
  rewrite Ha. simpl. rewrite Hlen, Hb. reflexivity.
Qed.

Lemma iloc_last_Ret {A} (s : list A) x : iloc_last s = Ret x -> last s = Some x.
Proof.
  unfold iloc_last. destruct (last s); [|discriminate].
  intros H. injection H as ->. reflexivity.
Qed.

Lemma length_rolling_mean w (s : list xfloat) : length (rolling_mean w s) = length s.
Proof. apply length_imap. Qed.

Lemma length_diff (s : list Q) : length (diff s) = length s.
Proof.
  destruct s as [|x rest]; [reflexivity|]. simpl. f_equal.
  revert x. induction rest as [|y rest IH]; intros x; simpl; [reflexivity|].
  now rewrite IH.
Qed.

Lemma length_rsi_gain df : length (rsi_gain df) = length df.
Proof.
  unfold rsi_gain, where_. now rewrite !length_map, length_diff, length_map.
Qed.

Lemma length_rsi_loss df : length (rsi_loss df) = length df.
Proof.
  unfold rsi_loss, where_. now rewrite !length_map, length_diff, length_map.
Qed.

(** ** Volume *)

(** C8, as the code has it.  With at least one and fewer than ten bars the
    ten-bar rolling mean is NaN; [analyze_volume] then raises nothing,
    reports an average volume of 0 and a volume ratio of 1, and its signal
    is Neutral. *)
Theorem analyze_volume_short_series :
  forall df : DataFrame,
    (0 < length df < 10)%nat ->
    exists r c,
      last df = Some c /\
      analyze_volume df = Ret r /\
      vol_volume r = volume c /\
      vol_avg_volume r = Fin 0 /\
      vol_volume_ratio r = Fin 1 /\
      vol_signal r = "NEUTRAL".
Proof.
  intros df [Hpos Hshort].
  destruct (last df) as [c|] eqn:Hlast.
  2:{ apply last_None in Hlast. subst df. simpl in Hpos. lia. }
  assert (Hne : map (fun c => Fin (volume c)) df <> []).
  { destruct df; [discriminate | simpl; discriminate]. }
  eexists. exists c. split; [reflexivity|].
  unfold analyze_volume.
  rewrite (iloc_last_map volume df c Hlast). simpl.
  rewrite (iloc_last_rolling_mean 10 _ Hne).
  rewrite window_mean_short by (rewrite length_map; exact Hshort). simpl.
  rewrite (iloc_last_map close df c Hlast). simpl.
  rewrite (iloc_last_map open df c Hlast). simpl.
  repeat split; reflexivity.
Qed.

Lemma analyze_volume_short_series_witness :
  exists r c,
    last (rising_series 3) = Some c /\
    analyze_volume (rising_series 3) = Ret r /\
    vol_volume r = volume c /\
    vol_avg_volume r = Fin 0 /\
    vol_volume_ratio r = Fin 1 /\
    vol_signal r = "NEUTRAL".
Proof.
  apply (analyze_volume_short_series (rising_series 3)).
  simpl. lia.
Defined.

(** C8, as the claim has it, fails: on three bars with volumes 10, 20, 30
    the mean of the available bars is 20 and the latest volume over it is
    3/2, yet the reported average is 0 and the reported ratio is 1. *)
Lemma analyze_volume_three_bars :
  (length three_bars < 10)%nat /\
  Qsum (map volume three_bars) / inject_Z (Z.of_nat (length three_bars)) == 20 /\
  exists r,
    analyze_volume three_bars = Ret r /\
    ~ xeq (vol_avg_volume r) (Fin 20) /\
    ~ xeq (vol_volume_ratio r) (Fin (30 / 20)).
Proof.
  split; [simpl; lia|]. split; [reflexivity|].
  eexists. split; [vm_compute; reflexivity|].
  split; intros H; discriminate H.
Qed.

(** ** RSI *)

(** The RSI value from the latest averages: [100 - 100 / (1 + rs)]. *)
Lemma calculate_rsi_latest cfg df period avg_gain avg_loss :
  iloc_last (rolling_mean (period_or period (RSI_PERIOD cfg)) (rsi_gain df)) = Ret avg_gain ->
  iloc_last (rolling_mean (period_or period (RSI_PERIOD cfg)) (rsi_loss df)) = Ret avg_loss ->
  exists r,
    calculate_rsi cfg df period = Ret r /\
    rsi_value r = xsub (Fin 100) (xdiv (Fin 100) (xadd (Fin 1) (xdiv avg_gain avg_loss))) /\
    rsi_signal r =
      (if xlt (rsi_value r) (Fin (RSI_OVERSOLD cfg)) then "CALL"
       else if xgt (rsi_value r) (Fin (RSI_OVERBOUGHT cfg)) then "PUT"
       else "NEUTRAL").
Proof.
  intros Hg Hl. unfold calculate_rsi.
  apply iloc_last_Ret in Hg. apply iloc_last_Ret in Hl.
  erewrite iloc_last_map.
  2:{ apply last_zip_with; [|exact Hg|exact Hl].
      now rewrite !length_rolling_mean, length_rsi_gain, length_rsi_loss. }
  simpl. eexists. split; [reflexivity|]. simpl. split; reflexivity.
Qed.

Lemma rsi_zero_loss cfg df period avg_gain avg_loss :
  iloc_last (rolling_mean (period_or period (RSI_PERIOD cfg)) (rsi_gain df))
    = Ret (Fin avg_gain) ->
  iloc_last (rolling_mean (period_or period (RSI_PERIOD cfg)) (rsi_loss df))
    = Ret (Fin avg_loss) ->
  avg_loss == 0 ->
  exists r,
    calculate_rsi cfg df period = Ret r /\
    (~ avg_gain == 0 -> rsi_value r = Fin 100) /\
    (avg_gain == 0 -> rsi_value r = NaN /\ rsi_signal r = "NEUTRAL").
Proof.
  intros Hg Hl Hzero.
  destruct (calculate_rsi_latest cfg df period _ _ Hg Hl) as (r & Hr & Hval & Hsig).
  exists r. split; [exact Hr|].
  assert (Hdiv : xdiv (Fin avg_gain) (Fin avg_loss) =
                 if Qlt_bool 0 avg_gain then PInf
                 else if Qlt_bool avg_gain 0 then NInf else NaN).
  { unfold xdiv. apply Qeq_bool_iff in Hzero. now rewrite Hzero. }
  rewrite Hdiv in Hval. split.
  - intros Hne. rewrite Hval.
    destruct (Qlt_bool 0 avg_gain) eqn:E1; [reflexivity|].
    destruct (Qlt_bool avg_gain 0) eqn:E2; [reflexivity|].
    apply Qlt_bool_false_iff in E1, E2. exfalso. apply Hne. lra.
  - intros Heq.
    assert (E1 : Qlt_bool 0 avg_gain = false) by (apply Qlt_bool_false_iff; lra).
    assert (E2 : Qlt_bool avg_gain 0 = false) by (apply Qlt_bool_false_iff; lra).
    rewrite E1, E2 in Hval. simpl in Hval.
    split; [exact Hval|]. rewrite Hsig, Hval. reflexivity.
Qed.

Lemma diff_from_deltas prev s : diff_from prev s = map Fin (deltas_from prev s).
Proof.
  revert prev. induction s as [|x rest IH]; intros prev; simpl; [reflexivity|].
  now rewrite IH.
Qed.

Lemma rsi_gain_q df : rsi_gain df = map Fin (gains_q df).
Proof.
  unfold rsi_gain, gains_q, diff, where_.
  destruct (map close df) as [|x rest]; [reflexivity|].
  simpl. f_equal. rewrite diff_from_deltas, !map_map.
  apply map_ext. intros d. unfold xgt, xlt. now destruct (Qlt_bool 0 d).
Qed.

Lemma rsi_loss_q df : rsi_loss df = map Fin (losses_q df).
Proof.
  unfold rsi_loss, losses_q, diff, where_.
  destruct (map close df) as [|x rest]; [reflexivity|].
  simpl. f_equal. rewrite diff_from_deltas, !map_map.
  apply map_ext. intros d. unfold xlt. now destruct (Qlt_bool d 0).
Qed.

Lemma xsum_map_Fin_from acc (l : list Q) :
  foldl xadd (Fin acc) (map Fin l) = Fin (foldl Qplus acc l).
Proof.
  revert acc. induction l as [|x l IH]; intros acc; simpl; [reflexivity|].
  apply IH.
Qed.

Lemma lastn_map {A B} (f : A -> B) n (l : list A) : lastn n (map f l) = map f (lastn n l).
Proof.
  unfold lastn. rewrite length_map.
  change (map f l) with (f <$> l). now rewrite fmap_drop.
Qed.

Lemma window_mean_Fin w (l : list Q) :
  (1 <= w <= length l)%nat ->
  window_mean w (map Fin l) = Fin (Qsum (lastn w l) / inject_Z (Z.of_nat w)).
Proof.
  intros [Hw Hlen]. unfold window_mean. rewrite length_map.
  destruct (Nat.ltb_spec (length l) w); [lia|].
  rewrite lastn_map. unfold xsum. rewrite xsum_map_Fin_from.
  unfold xdiv.
  destruct (Qeq_bool (inject_Z (Z.of_nat w)) 0) eqn:E; [|reflexivity].
  apply Qeq_bool_iff in E. unfold Qeq in E. simpl in E. lia.
Qed.

Lemma foldl_Qplus_nonneg (l : list Q) :
  Forall (fun x => 0 <= x) l -> forall acc, acc <= foldl Qplus acc l.
Proof.
  induction 1 as [|x l Hx _ IH]; intros acc; simpl; [lra|].
  specialize (IH (acc + x)). lra.
Qed.

Lemma foldl_Qplus_zero (l : list Q) :
  Forall (fun x => x == 0) l -> forall acc, foldl Qplus acc l == acc.
Proof.
  induction 1 as [|x l Hx _ IH]; intros acc; simpl; [lra|].
  rewrite IH. lra.
Qed.

Lemma foldl_Qplus_last_pos (l : list Q) x :
  Forall (fun x => 0 <= x) l -> last l = Some x -> 0 < x -> 0 < Qsum l.
Proof.
  intros Hall Hlast Hx. apply last_Some in Hlast as [l' ->].
  apply Forall_app in Hall as [Hl' _].
  unfold Qsum. rewrite foldl_app. simpl.
  pose proof (foldl_Qplus_nonneg l' Hl' 0). lra.
Qed.

Lemma last_lastn {A} n (l : list A) : (1 <= n)%nat -> last (lastn n l) = last l.
Proof.
  intros Hn. unfold lastn.
  destruct (last l) as [x|] eqn:E.
  - apply last_Some in E as [l' ->].
    rewrite length_app. simpl.
    rewrite drop_app_le by lia. apply last_snoc.
  - apply last_None in E. subst l. reflexivity.
Qed.

Lemma gains_q_nonneg df : Forall (fun x => 0 <= x) (gains_q df).
Proof.
  unfold gains_q. destruct (map close df) as [|x rest]; constructor; [lra|].
  apply Forall_map, Forall_forall. intros d _. simpl.
  destruct (Qlt_bool 0 d) eqn:E; [apply Qlt_bool_iff in E|]; lra.
Qed.

Lemma length_gains_q df : length (gains_q df) = length df.
Proof. rewrite <- length_rsi_gain, rsi_gain_q. now rewrite length_map. Qed.

Lemma length_losses_q df : length (losses_q df) = length df.
Proof. rewrite <- length_rsi_loss, rsi_loss_q. now rewrite length_map. Qed.

Lemma gains_q_rising df :
  strictly_rising (map close df) -> (2 <= length df)%nat ->
  exists x, last (gains_q df) = Some x /\ 0 < x.
Proof.
  unfold strictly_rising, deltas, gains_q. intros Hr Hlen.
  rewrite <- (length_map close) in Hlen.
  destruct (map close df) as [|x [|y rest]]; simpl in Hlen; try lia.
  set (ds := deltas_from x (y :: rest)) in *.
  assert (Hne : ds <> []) by discriminate.
  destruct (last ds) as [d|] eqn:E; [|apply last_None in E; contradiction].
  exists d.
  assert (Hd : 0 < d).
  { apply last_Some in E as [l' E]. rewrite E in Hr.
    apply Forall_app in Hr as [_ Hr]. now inversion Hr. }
  split; [|exact Hd].
  rewrite last_cons.
  change (map ?f ds) with (f <$> ds). rewrite fmap_last, E. simpl.
  apply Qlt_bool_iff in Hd. now rewrite Hd.
Qed.

Lemma gains_q_constant df :
  constant (map close df) -> Forall (fun x => x == 0) (gains_q df).
Proof.
  unfold constant, deltas, gains_q. intros Hc.
  destruct (map close df) as [|x rest]; constructor; [lra|].
  apply Forall_map. eapply Forall_impl; [exact Hc|].
  intros d Hd. simpl in *. destruct (Qlt_bool 0 d); lra.
Qed.

Lemma Forall_lastn {A} (P : A -> Prop) n (l : list A) : Forall P l -> Forall P (lastn n l).
Proof. intros H. unfold lastn. now apply Forall_drop. Qed.

(** C6, as the code has it.  Take a series at least as long as the RSI
    window whose average loss over the trailing window is 0.  Then
    [calculate_rsi] raises nothing, and the RSI it computes is 100 exactly
    when the average gain is not 0 - in particular on a strictly rising
    series of two bars or more.  When the average gain is 0 as well - in
    particular on a constant-close series - the division 0/0 yields NaN:
    the RSI is NaN and the RSI signal is Neutral. *)
Theorem rsi_when_average_loss_is_zero :
  forall (cfg : Config) (df : DataFrame) (period : option nat),
    (1 <= period_or period (RSI_PERIOD cfg) <= length df)%nat ->
    xeq (window_mean (period_or period (RSI_PERIOD cfg)) (rsi_loss df)) (Fin 0) ->
    exists r,
      calculate_rsi cfg df period = Ret r /\
      (xeq (window_mean (period_or period (RSI_PERIOD cfg)) (rsi_gain df)) (Fin 0) ->
         rsi_value r = NaN /\ rsi_signal r = "NEUTRAL") /\
      (~ xeq (window_mean (period_or period (RSI_PERIOD cfg)) (rsi_gain df)) (Fin 0) ->
         rsi_value r = Fin 100) /\
      (strictly_rising (map close df) -> (2 <= length df)%nat -> rsi_value r = Fin 100) /\
      (constant (map close df) -> rsi_value r = NaN).
Proof.
  intros cfg df period Hp Hloss.
  set (p := period_or period (RSI_PERIOD cfg)) in *.
  assert (Hdf : df <> []) by (destruct df; [simpl in Hp; lia | discriminate]).
  assert (Hg : window_mean p (rsi_gain df)
               = Fin (Qsum (lastn p (gains_q df)) / inject_Z (Z.of_nat p))).
  { rewrite rsi_gain_q. apply window_mean_Fin. now rewrite length_gains_q. }
  assert (Hl : window_mean p (rsi_loss df)
               = Fin (Qsum (lastn p (losses_q df)) / inject_Z (Z.of_nat p))).
  { rewrite rsi_loss_q. apply window_mean_Fin. now rewrite length_losses_q. }
  rewrite Hl in Hloss. simpl in Hloss.
  assert (Hgl : iloc_last (rolling_mean p (rsi_gain df))
                = Ret (Fin (Qsum (lastn p (gains_q df)) / inject_Z (Z.of_nat p)))).
  { rewrite iloc_last_rolling_mean, Hg; [reflexivity|].
    rewrite rsi_gain_q. destruct df; [contradiction|discriminate]. }
  assert (Hll : iloc_last (rolling_mean p (rsi_loss df))
                = Ret (Fin (Qsum (lastn p (losses_q df)) / inject_Z (Z.of_nat p)))).
  { rewrite iloc_last_rolling_mean, Hl; [reflexivity|].
    rewrite rsi_loss_q. destruct df; [contradiction|discriminate]. }
  destruct (rsi_zero_loss cfg df period _ _ Hgl Hll Hloss) as (r & Hr & Hpos & Hzero).
  exists r. split; [exact Hr|].
  rewrite Hg. simpl.
  assert (Hpq : 0 < inject_Z (Z.of_nat p)).
  { unfold Qlt. simpl. lia. }
  repeat split.
  - now apply Hzero.
  - now apply Hzero.
  - exact Hpos.
  - intros Hrise Hlen. apply Hpos.
    destruct (gains_q_rising df Hrise Hlen) as (x & Hx & Hxpos).
    assert (0 < Qsum (lastn p (gains_q df))).
    { apply foldl_Qplus_last_pos with x; [|rewrite last_lastn; [exact Hx | lia]|exact Hxpos].
      apply Forall_lastn, gains_q_nonneg. }
    intros Heq.
    assert (Qsum (lastn p (gains_q df)) == 0).
    { rewrite <- (Qmult_div_r (Qsum (lastn p (gains_q df))) (inject_Z (Z.of_nat p))) by lra.
      rewrite Heq. lra. }
    lra.
  - intros Hconst. apply Hzero.
    pose proof (foldl_Qplus_zero _ (Forall_lastn _ p _ (gains_q_constant df Hconst)) 0) as Hs.
    unfold Qsum. rewrite Hs. unfold Qdiv. lra.
Qed.

Lemma rsi_when_average_loss_is_zero_witness :
  exists r,
    calculate_rsi default_config (rising_series 15) None = Ret r /\
    (xeq (window_mean (period_or None (RSI_PERIOD default_config))
            (rsi_gain (rising_series 15))) (Fin 0) ->
       rsi_value r = NaN /\ rsi_signal r = "NEUTRAL") /\
    (~ xeq (window_mean (period_or None (RSI_PERIOD default_config))
              (rsi_gain (rising_series 15))) (Fin 0) ->
       rsi_value r = Fin 100) /\
    (strictly_rising (map close (rising_series 15)) ->
       (2 <= length (rising_series 15))%nat -> rsi_value r = Fin 100) /\
    (constant (map close (rising_series 15)) -> rsi_value r = NaN).
Proof.
  apply (rsi_when_average_loss_is_zero default_config (rising_series 15) None).
  - simpl. lia.
  - vm_compute. reflexivity.
Defined.

(** C6, as the claim has it, fails: fifteen bars that all close at 1 are
    long enough for the 14-bar window and their average loss is 0, yet the
    RSI is NaN, not 100. *)
Lemma rsi_flat_series_is_nan :
  (RSI_PERIOD default_config <= length (flat_series 15))%nat /\
  constant (map close (flat_series 15)) /\
  xeq (window_mean (RSI_PERIOD default_config) (rsi_loss (flat_series 15))) (Fin 0) /\
  exists r,
    calculate_rsi default_config (flat_series 15) None = Ret r /\
    rsi_value r = NaN /\
    ~ xeq (rsi_value r) (Fin 100).
Proof.
  split; [simpl; lia|].
  split; [repeat constructor|].
  split; [vm_compute; reflexivity|].
  eexists. split; [vm_compute; reflexivity|].
  split; [reflexivity|]. intros H. exact H.
Qed.

(** ** Position sizing *)

Lemma lookup_amounts_from per (assets : list string) :
  forall (m : gmap string Q) (a : string),
    foldl (fun result asset => <[asset := per]> result) m assets !! a
    = if decide (a ∈ assets) then Some per else m !! a.
Proof.
  induction assets as [|x rest IH]; intros m a; simpl.
  - destruct (decide (a ∈ [])) as [H|_]; [inversion H | reflexivity].
  - rewrite IH.
    destruct (decide (a ∈ rest)) as [Hin|Hnin].
    + rewrite decide_True by (now right). reflexivity.
    + destruct (decide (a = x)) as [->|Hne].
      * rewrite decide_True by left. apply lookup_insert_eq.
      * rewrite decide_False.
        -- apply lookup_insert_ne. congruence.
        -- intros H. apply elem_of_cons in H as [?|?]; contradiction.
Qed.

Lemma lookup_amounts_dict per assets a :
  amounts_dict per assets !! a = if decide (a ∈ assets) then Some per else None.
Proof. unfold amounts_dict. rewrite lookup_amounts_from. now rewrite lookup_empty. Qed.

Lemma calculate_entry_amount_result gw cfg assets w :
  exists per,
    1 <= per /\
    (calculate_entry_amount gw cfg assets w).1
    = if (length assets =? 0)%nat then ∅ else amounts_dict per assets.
Proof.
  unfold calculate_entry_amount, bind.
  destruct (initialize_if_needed gw w) as [u w1]. simpl.
  destruct (update_balance gw w1) as [ds w2]. simpl.
  unfold get_stats.
  eexists (py_max 1 _). split; [apply py_max_lower_bound|].
  destruct (length assets =? 0)%nat; reflexivity.
Qed.

Lemma entry_amounts_lookup gw cfg assets w :
  exists per,
    1 <= per /\
    forall a, (calculate_entry_amount gw cfg assets w).1 !! a
              = if decide (a ∈ assets) then Some per else None.
Proof.
  destruct (calculate_entry_amount_result gw cfg assets w) as (per & Hper & ->).
  exists per. split; [exact Hper|]. intros a.
  destruct assets as [|x rest]; simpl.
  - rewrite lookup_empty. destruct (decide (a ∈ [])) as [H|_]; [inversion H | reflexivity].
  - apply lookup_amounts_dict.
Qed.

Lemma trade_asset_sized gw cfg (entry_amounts : gmap string Q) asset amount w :
  entry_amounts !! asset = Some amount -> 1 <= amount ->
  (trade_asset gw cfg entry_amounts asset w).1 <> Continue EntryAmountTooSmall.
Proof.
  intros Hlook Hamount. unfold trade_asset. rewrite Hlook. simpl.
  assert (E : Qlt_bool amount 1 = false) by now apply Qlt_bool_false_iff.
  rewrite E. unfold bind.
  destruct (analyze_asset gw cfg asset 60 w) as [[analysis|] w1]; [|simpl; discriminate].
  destruct (analysis !! "overall") as [overall|]; [|simpl; discriminate].
  match goal with |- context [match ?x with Ret _ => _ | Raise _ => _ end] =>
    destruct x as [[|]|] end; try (simpl; discriminate).
  destruct (record_trade gw asset amount (get_signal overall) None None w1) as [t w2].
  destruct (place_binary_order gw asset amount (get_signal overall) (EXPIRATION_TIME cfg) w2)
    as [[| |] w3]; simpl; discriminate.
Qed.

(** C9.  Whatever the asset list, the broker and the ledger (so whatever
    the balance: zero and negative included), every amount in the mapping
    returned by [calculate_entry_amount] is at least 1.  Hence every
    requested asset has an amount of at least 1 in the mapping, the test
    [entry_amounts.get(asset, 0) < 1] of [execute_trades] is false for it,
    and in no world does its turn of the loop end in the
    entry-amount-too-small [continue]. *)
Theorem entry_amounts_at_least_one :
  forall (gw : Gateway) (cfg : Config) (assets : list string) (w : World),
    map_Forall (fun _ amount => 1 <= amount) (calculate_entry_amount gw cfg assets w).1 /\
    Forall (fun asset =>
              (exists amount,
                 (calculate_entry_amount gw cfg assets w).1 !! asset = Some amount /\
                 1 <= amount) /\
              Qlt_bool (default 0 ((calculate_entry_amount gw cfg assets w).1 !! asset)) 1
                = false /\
              forall w2 : World,
                (trade_asset gw cfg (calculate_entry_amount gw cfg assets w).1 asset w2).1
                <> Continue EntryAmountTooSmall)
           assets.
Proof.
  intros gw cfg assets w.
  destruct (entry_amounts_lookup gw cfg assets w) as (per & Hper & Hlook).
  split.
  - intros a amount Ha. rewrite Hlook in Ha.
    destruct (decide (a ∈ assets)); [|discriminate].
    injection Ha as <-. exact Hper.
  - apply Forall_forall. intros a Ha.
    assert (Hsome : (calculate_entry_amount gw cfg assets w).1 !! a = Some per).
    { rewrite Hlook. now rewrite decide_True. }
    split; [exists per; split; [exact Hsome | exact Hper]|].
    split.
    + rewrite Hsome. simpl. now apply Qlt_bool_false_iff.
    + intros w2. now apply trade_asset_sized with per.
Qed.

(** ** The batch report *)

Lemma analyze_asset_overall gw cfg asset timeframe w signals w' :
  analyze_asset gw cfg asset timeframe w = (Some signals, w') ->
  exists o, signals !! "overall" = Some (IOverall o).
Proof.
  unfold analyze_asset, bind, get_candles, bind, emit, ret. simpl.
  destruct (gw_get_candles gw _ asset timeframe 100) as [[|c df]|]; try discriminate.
  destruct (analyze_candles cfg (c :: df)) as [s|e] eqn:E; [|discriminate].
  intros H. injection H as <- _.
  unfold analyze_candles in E.
  destruct (calculate_rsi cfg (c :: df) None); [|discriminate].
  destruct (calculate_macd cfg (c :: df)); [|discriminate].
  destruct (analyze_volume (c :: df)); [|discriminate].
  destruct (detect_candlestick_patterns (c :: df)); [|discriminate].
  simpl in E.
  destruct (determine_overall_signal _) as [o|]; [|discriminate].
  simpl in E. injection E as <-.
  exists o. apply lookup_insert_eq.
Qed.

Lemma analyze_asset_trace gw cfg asset timeframe w :
  trace (analyze_asset gw cfg asset timeframe w).2
  = trace w ++ [EvGetCandles asset timeframe 100].
Proof.
  unfold analyze_asset, bind, get_candles, bind, emit, ret. simpl.
  destruct (gw_get_candles gw _ asset timeframe 100) as [[|c df]|]; try reflexivity.
  destruct (analyze_candles cfg (c :: df)); reflexivity.
Qed.

Lemma record_trade_trace gw asset amount direction result pl w :
  trace (record_trade gw asset amount direction result pl w).2 = trace w.
Proof. reflexivity. Qed.

Lemma trade_asset_turn gw cfg (entry_amounts : gmap string Q) asset w :
  exists evs,
    trace (trade_asset gw cfg entry_amounts asset w).2 = trace w ++ evs /\
    match (trade_asset gw cfg entry_amounts asset w).1 with
    | Continue _ => placed_assets evs = []
    | Append entry =>
        placed_assets evs = [asset] /\ tr_asset entry = asset /\ reported_status entry
    end.
Proof.
  unfold trade_asset.
  destruct (entry_amounts !! asset) as [amount|] eqn:Hlook; simpl.
  2:{ exists []. rewrite app_nil_r. split; reflexivity. }
  destruct (Qlt_bool amount 1).
  { exists []. rewrite app_nil_r. split; reflexivity. }
  unfold bind.
  pose proof (analyze_asset_trace gw cfg asset 60 w) as Htr.
  destruct (analyze_asset gw cfg asset 60 w) as [[analysis|] w1] eqn:Han; simpl in Htr.
  2:{ exists [EvGetCandles asset 60 100]. split; [exact Htr | reflexivity]. }
  destruct (analyze_asset_overall _ _ _ _ _ _ _ Han) as (o & ->).
  simpl.
  destruct (String.eqb (ov_signal o) "NEUTRAL"); simpl.
  { exists [EvGetCandles asset 60 100]. split; [exact Htr | reflexivity]. }
  destruct (Qlt_bool (ov_strength o) 60); simpl.
  { exists [EvGetCandles asset 60 100]. split; [exact Htr | reflexivity]. }
  unfold place_binary_order, bind, emit, ret. simpl.
  rewrite Htr.
  exists [EvGetCandles asset 60 100;
          EvPlaceOrder asset amount (ov_signal o) (EXPIRATION_TIME cfg)].
  destruct (gw_place_binary_order gw _ asset amount (ov_signal o) (EXPIRATION_TIME cfg));
    simpl; rewrite <- app_assoc; unfold reported_status; simpl; auto 10.
Qed.

Lemma trade_assets_report gw cfg (entry_amounts : gmap string Q) assets :
  forall results w,
  exists evs new,
    trace (trade_assets gw cfg entry_amounts assets results w).2 = trace w ++ evs /\
    (trade_assets gw cfg entry_amounts assets results w).1 = results ++ new /\
    map tr_asset new = placed_assets evs /\
    sublist (map tr_asset new) assets /\
    Forall reported_status new.
Proof.
  induction assets as [|asset rest IH]; intros results w; simpl.
  - exists [], []. rewrite !app_nil_r. repeat split; constructor.
  - unfold bind.
    destruct (trade_asset_turn gw cfg entry_amounts asset w) as (evs1 & Htr1 & Hturn).
    destruct (trade_asset gw cfg entry_amounts asset w) as [[why|entry] w1];
      simpl in Htr1, Hturn.
    + destruct (IH results w1) as (evs & new & Htr & Hres & Hmap & Hsub & Hst).
      exists (evs1 ++ evs), new.
      rewrite Htr, Htr1, app_assoc. split; [reflexivity|].
      split; [exact Hres|].
      unfold placed_assets in *. rewrite omap_app, Hturn. simpl.
      repeat split; [exact Hmap | now apply sublist_cons | exact Hst].
    + destruct Hturn as (Hplaced & Hasset & Hstatus).
      destruct (IH (results ++ [entry]) w1) as (evs & new & Htr & Hres & Hmap & Hsub & Hst).
      exists (evs1 ++ evs), (entry :: new).
      rewrite Htr, Htr1, app_assoc. split; [reflexivity|].
      split; [rewrite Hres, <- app_assoc; reflexivity|].
      change (map tr_asset (entry :: new)) with (tr_asset entry :: map tr_asset new).
      rewrite Hasset.
      split; [|split; [now apply sublist_skip | now constructor]].
      unfold placed_assets in *. rewrite omap_app, Hplaced, Hmap. reflexivity.
Qed.

(** C7, as the code has it.  The entries of the report returned by
    [execute_trades] are, in order, exactly the orders submitted to the
    gateway during the call: one entry per submitted order, carrying that
    order's asset and the status placed, failed or error.  The reported
    assets form a subsequence of the requested ones; an asset whose turn
    ends in a [continue] (failed analysis, neutral signal, strength below
    60) submits no order and gets no entry, and no entry is ever tagged
    skipped. *)
Theorem execute_trades_report :
  forall (gw : Gateway) (cfg : Config) (assets : list string) (w : World),
  exists evs,
    trace (execute_trades gw cfg assets w).2 = trace w ++ evs /\
    map tr_asset (report_trades (execute_trades gw cfg assets w).1) = placed_assets evs /\
    sublist (map tr_asset (report_trades (execute_trades gw cfg assets w).1)) assets /\
    Forall reported_status (report_trades (execute_trades gw cfg assets w).1).
Proof.
  intros gw cfg assets w.
  unfold execute_trades, bind.
  pose proof (refresh_refreshed gw w) as [(n1 & _ & Htr1) _].
  pose proof (check_stop_conditions_eq gw cfg w) as Hcheck. cbv zeta in Hcheck.
  destruct (check_stop_conditions gw cfg w) as [sc w1].
  injection Hcheck as Hsc Hw1. rewrite <- Hw1 in Htr1. clear Hw1.
  assert (Hbal : forall n, placed_assets (repeat EvGetBalance n) = []).
  { clear. induction n; [reflexivity | exact IHn]. }
  destruct sc as [reason pct|pct]; simpl.
  - exists (repeat EvGetBalance n1). rewrite Hbal.
    repeat split; [exact Htr1 | apply sublist_nil_l | constructor].
  - pose proof (refresh_refreshed gw w1) as [(n2 & _ & Htr2) _].
    rewrite <- calculate_entry_amount_world with (cfg := cfg) (assets := assets) in Htr2.
    destruct (calculate_entry_amount gw cfg assets w1) as [amounts w2]. simpl in Htr2.
    destruct (trade_assets_report gw cfg amounts assets [] w2)
      as (evs & new & Htr & Hres & Hmap & Hsub & Hst).
    destruct (trade_assets gw cfg amounts assets [] w2) as [trades w3].
    simpl in *. subst trades.
    exists (repeat EvGetBalance n1 ++ repeat EvGetBalance n2 ++ evs).
    rewrite Htr, Htr2, Htr1, <- !app_assoc.
    split; [reflexivity|].
    split; [|split; assumption].
    unfold placed_assets in *. rewrite !omap_app, !Hbal. exact Hmap.
Qed.

(** C7, as the claim has it, fails: one flat bar gives a Neutral fusion,
    the turn of EURUSD ends in the no-strong-signal [continue], and the
    executed report comes back with no entry for EURUSD. *)
Lemma skipped_asset_has_no_entry :
  report_status (execute_trades quiet_gateway default_config ["EURUSD"] import_world).1
    = "executed" /\
  (trade_asset quiet_gateway default_config
     (calculate_entry_amount quiet_gateway default_config ["EURUSD"]
        (check_stop_conditions quiet_gateway default_config import_world).2).1
     "EURUSD"
     (calculate_entry_amount quiet_gateway default_config ["EURUSD"]
        (check_stop_conditions quiet_gateway default_config import_world).2).2).1
    = Continue NoStrongSignal /\
  ~ Exists (fun entry => tr_asset entry = "EURUSD")
      (report_trades
         (execute_trades quiet_gateway default_config ["EURUSD"] import_world).1).
Proof.
  split; [vm_compute; reflexivity|].
  split; [vm_compute; reflexivity|].
  assert (E : report_trades
                (execute_trades quiet_gateway default_config ["EURUSD"] import_world).1 = [])
    by (vm_compute; reflexivity).
  rewrite E. intros H. inversion H.
Qed.

(** ** Runs from candles to orders *)

(** Sizing always refreshes the balance first: it is visible in the trace. *)
Lemma calculate_entry_amount_reads_balance gw cfg assets w :
  exists n,
    (1 <= n <= 2)%nat /\
    trace (calculate_entry_amount gw cfg assets w).2 = trace w ++ repeat EvGetBalance n.
Proof.
  rewrite calculate_entry_amount_world.
  destruct (refresh_refreshed gw w) as [H _]. exact H.
Qed.

(** On the engulfing pair two of the four indicators say Call (MACD and
    the pattern) and none says Put.  The fusion reports a strength of
    200/3, which passes the threshold of 60; two out of four is 50, which
    would not. *)
Lemma engulfing_pair_fusion :
  exists signals o,
    analyze_candles default_config engulfing_pair = Ret signals /\
    signals !! "overall" = Some (IOverall o) /\
    ov_signal o = "CALL" /\ ov_call_count o = 2%Z /\ ov_put_count o = 0%Z /\
    ov_strength o == 200 # 3 /\
    Qlt_bool (ov_strength o) 60 = false /\
    Qlt_bool (inject_Z (ov_call_count o) / 4 * 100) 60 = true.
Proof.
  eexists. eexists. split; [vm_compute; reflexivity|].
  split; [vm_compute; reflexivity|].
  repeat split.
Qed.

(** With 1000 on the account and one asset, the engulfing pair leads to a
    Call order of 200, recorded as pending and reported as placed. *)
Lemma engulfing_pair_is_traded :
  exists amount w',
    execute_trades (steady_gateway 100%Z 1000 engulfing_pair) default_config
      ["EURUSD"] import_world
    = (Executed [Placed "EURUSD" "CALL" amount 1 (Some "order-1")], w') /\
    amount == 200 /\
    placed_assets (trace w') = ["EURUSD"] /\
    map t_asset (trades (daily_stats w')) = ["EURUSD"] /\
    map t_result (trades (daily_stats w')) = [None].
Proof.
  eexists. eexists. split; [vm_compute; reflexivity|].
  repeat split.
Qed.

(** ** Further runs of the model on sample inputs *)

(** A flat series has a zero MACD line and a Neutral MACD signal. *)
Lemma macd_flat_series :
  exists r,
    calculate_macd default_config (flat_series 30) = Ret r /\
    macd_macd r == 0 /\ macd_histogram r == 0 /\ macd_signal r = "NEUTRAL".
Proof.
  eexists. split; [vm_compute; reflexivity|]. repeat split.
Qed.

(** Opened at 1000 and down to 580, the ledger is 42 percent in loss and
    the default limit of 40 percent stops the day. *)
Lemma stop_loss_at_42_percent :
  exists pct w',
    check_stop_conditions (steady_gateway 100%Z 580 (flat_series 1)) default_config
      (world_of (fresh_stats 100%Z 1000))
    = (StopTriggered "STOP_LOSS" pct, w') /\
    pct == - (42).
Proof.
  eexists. eexists. split; [vm_compute; reflexivity|]. reflexivity.
Qed.

(** Two assets on a balance of 1000 with 20 percent at risk: 100 each. *)
Lemma sizing_two_assets :
  exists a b,
    (calculate_entry_amount (steady_gateway 100%Z 1000 (flat_series 1)) default_config
       ["EURUSD"; "GBPUSD"] import_world).1 !! "EURUSD" = Some a /\
    (calculate_entry_amount (steady_gateway 100%Z 1000 (flat_series 1)) default_config
       ["EURUSD"; "GBPUSD"] import_world).1 !! "GBPUSD" = Some b /\
    a == 100 /\ b == 100.
Proof.
  eexists. eexists. split; [vm_compute; reflexivity|].
  split; [vm_compute; reflexivity|]. split; reflexivity.
Qed.

(** On a zero or a negative balance the amount is the floor of 1. *)
Lemma sizing_without_funds :
  (calculate_entry_amount (steady_gateway 100%Z 0 (flat_series 1)) default_config
     ["EURUSD"] import_world).1 !! "EURUSD" = Some 1 /\
  (calculate_entry_amount (steady_gateway 100%Z (- (250)) (flat_series 1)) default_config
     ["EURUSD"] import_world).1 !! "EURUSD" = Some 1.
Proof.
  split; vm_compute; reflexivity.
Qed.

(** [analyze_volume] on an empty frame raises, and with ten bars of equal
    volume the ratio is the latest volume over the mean. *)
Lemma analyze_volume_other_lengths :
  analyze_volume [] = Raise IndexError /\
  exists r,
    analyze_volume (flat_series 10) = Ret r /\
    xeq (vol_avg_volume r) (Fin 5) /\ xeq (vol_volume_ratio r) (Fin 1).
Proof.
  split; [reflexivity|].
  eexists. split; [vm_compute; reflexivity|]. split; reflexivity.
Qed.
